(** * NTP client of the MicroPython demo firmware (ntp.py)

    A shallow embedding of [ntp.Client]: the packet codec
    ([pack_request], [unpack_response]) and the query orchestration
    ([query_time]), together with the fragment of Python's [struct] and
    [socket] modules that the client calls.

    Python integers are unbounded, so they are [Z]; [bytes] objects are
    lists of [byte]; [str] objects are [string]s (the client only ever
    builds characters with code points below 256).  Methods that mutate
    [self] or the socket table are written in a state-and-exception
    monad. *)

From Stdlib Require Import ZArith List String Ascii Bool Lia.
From Stdlib Require Import Strings.Byte Numbers.DecimalString.
From Stdlib Require Import QArith.
Import ListNotations.

Open Scope Z_scope.

(* ================================================================= *)
(** ** Python runtime: exceptions and the monad of method bodies *)

Module Py.

(** The exception classes that can leave the client.  [socket.gaierror]
    and the socket timeout are subclasses of [OSError]; the [struct]
    module of MicroPython, on which the firmware runs, raises
    [ValueError]. *)
Inductive exn : Type :=
| OSError (errno : Z)
| ValueError (msg : string)
| IndexError.

(** [isinstance(e, OSError)], as tested by the caller in demo.py. *)
Definition is_OSError (e : exn) : bool :=
  match e with
  | OSError _ => true
  | _ => false
  end.

Definition ETIMEDOUT : Z := 110.

Definition result (A : Type) : Type := (exn + A)%type.

(** A computation over a mutable state [S] that may raise. When it
    raises, the state reached so far is kept: Python does not roll
    back assignments. *)
Definition Run (S A : Type) : Type := S -> S * result A.

Definition ret {S A} (a : A) : Run S A := fun s => (s, inr a).

Definition raise {S A} (e : exn) : Run S A := fun s => (s, inl e).

Definition bind {S A B} (m : Run S A) (k : A -> Run S B) : Run S B :=
  fun s =>
    match m s with
    | (s', inl e) => (s', inl e)
    | (s', inr a) => k a s'
    end.

Definition get {S} : Run S S := fun s => (s, inr s).

Definition modify {S} (f : S -> S) : Run S unit := fun s => (f s, inr tt).

(** Lifts the outcome of a call that touches no state. *)
Definition lift {S A} (r : result A) : Run S A := fun s => (s, r).

(** Runs a computation on one component of a pair state. *)
Definition on_fst {S T A} (m : Run S A) : Run (S * T) A :=
  fun st => let '(s', r) := m (fst st) in ((s', snd st), r).

Definition on_snd {S T A} (m : Run T A) : Run (S * T) A :=
  fun st => let '(t', r) := m (snd st) in ((fst st, t'), r).

End Py.

Import Py.

Declare Scope run_scope.
Delimit Scope run_scope with run.
Notation "x <- m ;; k" := (bind m (fun x => k))
  (at level 61, m at next level, right associativity) : run_scope.
Notation "m ;;; k" := (bind m (fun _ => k))
  (at level 61, right associativity) : run_scope.

Definition bytes : Type := list byte.

(* ================================================================= *)
(** ** The [struct] module of MicroPython (standard sizes, network
       byte order) *)

Module Struct.

(** The format characters the packet format uses, plus ['B']. *)
Inductive code : Type :=
| c_b   (* 'b': signed char *)
| c_B   (* 'B': unsigned char *)
| c_I   (* 'I': unsigned int, 4 bytes *)
| c_Q.  (* 'Q': unsigned long long, 8 bytes *)

Definition code_of_ascii (a : ascii) : option code :=
  if Ascii.eqb a "b" then Some c_b
  else if Ascii.eqb a "B" then Some c_B
  else if Ascii.eqb a "I" then Some c_I
  else if Ascii.eqb a "Q" then Some c_Q
  else None.

Fixpoint parse_codes (s : string) : option (list code) :=
  match s with
  | EmptyString => Some []
  | String a rest =>
      match code_of_ascii a, parse_codes rest with
      | Some c, Some cs => Some (c :: cs)
      | _, _ => None
      end
  end.

(** A format string: the byte-order mark ['!'] (network order,
    standard sizes, no padding) followed by format characters. *)
Definition parse_format (fmt : string) : option (list code) :=
  match fmt with
  | String "!"%char rest => parse_codes rest
  | _ => None
  end.

Definition size (c : code) : nat :=
  match c with
  | c_b | c_B => 1
  | c_I => 4
  | c_Q => 8
  end.

Definition signed (c : code) : bool :=
  match c with
  | c_b => true
  | _ => false
  end.

Definition bits (c : code) : Z := 8 * Z.of_nat (size c).

(** Smallest and largest value that a field of a format character
    holds without wrapping. *)
Definition lo (c : code) : Z :=
  if signed c then - 2 ^ (bits c - 1) else 0.

Definition hi (c : code) : Z :=
  if signed c then 2 ^ (bits c - 1) - 1 else 2 ^ bits c - 1.

Definition in_range (c : code) (v : Z) : bool :=
  (lo c <=? v) && (v <=? hi c).

Fixpoint calcsize (cs : list code) : nat :=
  match cs with
  | [] => 0
  | c :: cs' => size c + calcsize cs'
  end.

Definition byte_of_Z (v : Z) : byte :=
  match Byte.of_N (Z.to_N (v mod 256)) with
  | Some b => b
  | None => x00
  end.

Definition Z_of_byte (b : byte) : Z := Z.of_N (Byte.to_N b).

(** [n] bytes of [v], most significant first; a negative [v] comes
    out in two's complement. *)
Fixpoint to_bytes_big (n : nat) (v : Z) : bytes :=
  match n with
  | O => []
  | S k => to_bytes_big k (v / 256) ++ [byte_of_Z v]
  end.

(** [int.from_bytes(bs, 'big')]. *)
Definition from_bytes_big (bs : bytes) : Z :=
  fold_left (fun acc b => acc * 256 + Z_of_byte b) bs 0.

Definition encode (c : code) (v : Z) : bytes := to_bytes_big (size c) v.

Definition decode (c : code) (bs : bytes) : Z :=
  let u := from_bytes_big bs in
  if signed c && (2 ^ (bits c - 1) <=? u) then u - 2 ^ bits c else u.

(** The fields of a packed buffer.  Each value is stored with as many
    of its low bytes as the field has, without a range check; values
    beyond the format are ignored and fields without a value stay
    zero. *)
Fixpoint pack_fields (cs : list code) (vs : list Z) : bytes :=
  match cs with
  | [] => []
  | c :: cs' =>
      match vs with
      | v :: vs' => encode c v ++ pack_fields cs' vs'
      | [] => repeat x00 (size c) ++ pack_fields cs' []
      end
  end.

Fixpoint unpack_fields (cs : list code) (data : bytes) : list Z :=
  match cs with
  | [] => []
  | c :: cs' =>
      decode c (firstn (size c) data) :: unpack_fields cs' (skipn (size c) data)
  end.

(** [struct.pack(fmt, v1, v2, ...)]: a buffer of the size of the
    format; it raises only for a format it cannot read. *)
Definition pack (fmt : string) (vs : list Z) : result bytes :=
  match parse_format fmt with
  | Some cs => inr (pack_fields cs vs)
  | None => inl (ValueError "bad typecode")
  end.

(** [struct.unpack(fmt, data)]: the buffer must have at least the size
    of the format, otherwise [ValueError] is raised; bytes beyond that
    size are not looked at. *)
Definition unpack (fmt : string) (data : bytes) : result (list Z) :=
  match parse_format fmt with
  | Some cs =>
      if (calcsize cs <=? List.length data)%nat
      then inr (unpack_fields cs data)
      else inl (ValueError "buffer too small")
  | None => inl (ValueError "bad typecode")
  end.

End Struct.

(* ================================================================= *)
(** ** String helpers used by the reference-id decoding *)

Module Str.

Definition NUL : ascii := Ascii.zero.

(** [chr(n)] for a code point below 256. *)
Definition chr (n : Z) : string :=
  String (ascii_of_N (Z.to_N n)) EmptyString.

(** The conversion ["%d"] of an integer. *)
Definition dec (n : Z) : string := NilZero.string_of_int (Z.to_int n).

(** ["%c%c%c%c" % fields] *)
Definition format_cccc (fields : Z * Z * Z * Z) : string :=
  let '(a, b, c, d) := fields in
  (chr a ++ chr b ++ chr c ++ chr d)%string.

(** ["%d.%d.%d.%d" % fields] *)
Definition format_dotted (fields : Z * Z * Z * Z) : string :=
  let '(a, b, c, d) := fields in
  (dec a ++ "." ++ dec b ++ "." ++ dec c ++ "." ++ dec d)%string.

(** [s.rstrip(ch)] for a single character [ch]: drops every trailing
    occurrence of [ch]. *)
Fixpoint rstrip (s : string) (ch : ascii) : string :=
  match s with
  | EmptyString => EmptyString
  | String a rest =>
      match rstrip rest ch with
      | EmptyString => if Ascii.eqb a ch then EmptyString else String a EmptyString
      | kept => String a kept
      end
  end.

End Str.

(* ================================================================= *)
(** ** The [socket] module, as far as the client uses it *)

Module Socket.

(** An IPv4 socket address, [(ip, port)]. *)
Definition sockaddr : Type := (string * Z)%type.

Definition sockaddr_eqb (a b : sockaddr) : bool :=
  String.eqb (fst a) (fst b) && Z.eqb (snd a) (snd b).

(** One entry of [getaddrinfo]'s result:
    [(family, type, proto, canonname, sockaddr)]. *)
Definition addrinfo : Type := (Z * Z * Z * string * sockaddr)%type.

(** [info[-1]] *)
Definition last_of (info : addrinfo) : sockaddr := snd info.

Definition datagram : Type := (bytes * sockaddr)%type.

(** The network as seen from the device.  [dns] is what address
    resolution answers; [send_fault] makes [sendto] raise; [inbox]
    holds the datagrams that reach the socket in time, in order of
    arrival: once it is empty the next read runs into the timeout.
    [open_fds] are the descriptors of the sockets that are open. *)
Record World : Type := mkWorld {
  dns : string -> Z -> result (list addrinfo);
  send_fault : option exn;
  inbox : list datagram;
  outbox : list datagram;
  open_fds : list nat;
  next_fd : nat
}.

Definition set_inbox (q : list datagram) (w : World) : World :=
  mkWorld (dns w) (send_fault w) q (outbox w) (open_fds w) (next_fd w).

Definition set_outbox (q : list datagram) (w : World) : World :=
  mkWorld (dns w) (send_fault w) (inbox w) q (open_fds w) (next_fd w).

Definition set_fds (fds : list nat) (next : nat) (w : World) : World :=
  mkWorld (dns w) (send_fault w) (inbox w) (outbox w) fds next.

(** [socket.getaddrinfo(host, port, AF_INET)] *)
Definition getaddrinfo (host : string) (port : Z) : Run World (list addrinfo) :=
  fun w => (w, dns w host port).

(** [socket.socket(AF_INET, SOCK_DGRAM)]: a fresh open descriptor. *)
Definition socket : Run World nat :=
  fun w => (set_fds (next_fd w :: open_fds w) (S (next_fd w)) w, inr (next_fd w)).

(** [s.settimeout(t)]: time is not part of the model; the timeout
    shows as the end of [inbox]. *)
Definition settimeout (s : nat) (t : Z) : Run World unit := ret tt.

(** [s.sendto(data, addr)] *)
Definition sendto (s : nat) (data : bytes) (addr : sockaddr) : Run World Z :=
  fun w =>
    match send_fault w with
    | Some e => (w, inl e)
    | None => (set_outbox (outbox w ++ [(data, addr)]) w,
               inr (Z.of_nat (List.length data)))
    end.

(** [s.recvfrom(bufsize)]: the next datagram, cut to [bufsize] bytes,
    with its source address; a timeout when none is left. *)
Definition recvfrom (s : nat) (bufsize : nat) : Run World (bytes * sockaddr) :=
  fun w =>
    match inbox w with
    | [] => (w, inl (OSError ETIMEDOUT))
    | (payload, src) :: later => (set_inbox later w, inr (firstn bufsize payload, src))
    end.

(** [s.close()] *)
Definition close (s : nat) : Run World unit :=
  modify (fun w => set_fds (List.remove Nat.eq_dec s (open_fds w)) (next_fd w) w).

Definition is_open (s : nat) (w : World) : Prop := In s (open_fds w).

End Socket.

(* ================================================================= *)
(** ** ntp.Client *)

Module Ntp.

Import Socket.

(** [reference_id] starts out as the integer [0] and holds a string
    after a response has been decoded. *)
Inductive refid : Type :=
| RidInt (n : Z)
| RidStr (s : string).

Record Client : Type := mkClient {
  host : string;
  port : Z;
  timeout : Z;
  li : Z;
  vn : Z;
  mode : Z;
  stratum : Z;
  poll : Z;
  precision : Z;
  root_delay : Z;
  root_dispersion : Z;
  reference_id : refid;
  reference_timestamp : Z;
  origin_timestamp : Z;
  receive_timestamp : Z;
  transmit_timestamp : Z
}.

Definition _PACKET_FORMAT : string := "!bbbbIIIQQQQ".

Definition _EPOCH_DELTA : Z := 2208988800.

(** [Client.__init__] *)
Definition init (host : string) (port timeout : Z) : Client :=
  mkClient host port timeout 0 3 3 0 0 0 0 0 (RidInt 0) 0 0 0 0.

Definition default_host : string := "0.north-america.pool.ntp.org".

Definition default_client : Client := init default_host 123 5.

(** Attribute assignments [self.x = v]. *)
Definition set_li (v : Z) (c : Client) : Client :=
  mkClient (host c) (port c) (timeout c) v (vn c) (mode c) (stratum c) (poll c)
    (precision c) (root_delay c) (root_dispersion c) (reference_id c)
    (reference_timestamp c) (origin_timestamp c) (receive_timestamp c)
    (transmit_timestamp c).

Definition set_vn (v : Z) (c : Client) : Client :=
  mkClient (host c) (port c) (timeout c) (li c) v (mode c) (stratum c) (poll c)
    (precision c) (root_delay c) (root_dispersion c) (reference_id c)
    (reference_timestamp c) (origin_timestamp c) (receive_timestamp c)
    (transmit_timestamp c).

Definition set_mode (v : Z) (c : Client) : Client :=
  mkClient (host c) (port c) (timeout c) (li c) (vn c) v (stratum c) (poll c)
    (precision c) (root_delay c) (root_dispersion c) (reference_id c)
    (reference_timestamp c) (origin_timestamp c) (receive_timestamp c)
    (transmit_timestamp c).

Definition set_stratum (v : Z) (c : Client) : Client :=
  mkClient (host c) (port c) (timeout c) (li c) (vn c) (mode c) v (poll c)
    (precision c) (root_delay c) (root_dispersion c) (reference_id c)
    (reference_timestamp c) (origin_timestamp c) (receive_timestamp c)
    (transmit_timestamp c).

Definition set_poll (v : Z) (c : Client) : Client :=
  mkClient (host c) (port c) (timeout c) (li c) (vn c) (mode c) (stratum c) v
    (precision c) (root_delay c) (root_dispersion c) (reference_id c)
    (reference_timestamp c) (origin_timestamp c) (receive_timestamp c)
    (transmit_timestamp c).

Definition set_precision (v : Z) (c : Client) : Client :=
  mkClient (host c) (port c) (timeout c) (li c) (vn c) (mode c) (stratum c) (poll c)
    v (root_delay c) (root_dispersion c) (reference_id c)
    (reference_timestamp c) (origin_timestamp c) (receive_timestamp c)
    (transmit_timestamp c).

Definition set_root_delay (v : Z) (c : Client) : Client :=
  mkClient (host c) (port c) (timeout c) (li c) (vn c) (mode c) (stratum c) (poll c)
    (precision c) v (root_dispersion c) (reference_id c)
    (reference_timestamp c) (origin_timestamp c) (receive_timestamp c)
    (transmit_timestamp c).

Definition set_root_dispersion (v : Z) (c : Client) : Client :=
  mkClient (host c) (port c) (timeout c) (li c) (vn c) (mode c) (stratum c) (poll c)
    (precision c) (root_delay c) v (reference_id c)
    (reference_timestamp c) (origin_timestamp c) (receive_timestamp c)
    (transmit_timestamp c).

Definition set_reference_id (v : refid) (c : Client) : Client :=
  mkClient (host c) (port c) (timeout c) (li c) (vn c) (mode c) (stratum c) (poll c)
    (precision c) (root_delay c) (root_dispersion c) v
    (reference_timestamp c) (origin_timestamp c) (receive_timestamp c)
    (transmit_timestamp c).

Definition set_reference_timestamp (v : Z) (c : Client) : Client :=
  mkClient (host c) (port c) (timeout c) (li c) (vn c) (mode c) (stratum c) (poll c)
    (precision c) (root_delay c) (root_dispersion c) (reference_id c)
    v (origin_timestamp c) (receive_timestamp c) (transmit_timestamp c).

Definition set_origin_timestamp (v : Z) (c : Client) : Client :=
  mkClient (host c) (port c) (timeout c) (li c) (vn c) (mode c) (stratum c) (poll c)
    (precision c) (root_delay c) (root_dispersion c) (reference_id c)
    (reference_timestamp c) v (receive_timestamp c) (transmit_timestamp c).

Definition set_receive_timestamp (v : Z) (c : Client) : Client :=
  mkClient (host c) (port c) (timeout c) (li c) (vn c) (mode c) (stratum c) (poll c)
    (precision c) (root_delay c) (root_dispersion c) (reference_id c)
    (reference_timestamp c) (origin_timestamp c) v (transmit_timestamp c).

Definition set_transmit_timestamp (v : Z) (c : Client) : Client :=
  mkClient (host c) (port c) (timeout c) (li c) (vn c) (mode c) (stratum c) (poll c)
    (precision c) (root_delay c) (root_dispersion c) (reference_id c)
    (reference_timestamp c) (origin_timestamp c) (receive_timestamp c) v.

Local Open Scope run_scope.

(** [Client.pack_request(origin_timestamp)] *)
Definition pack_request (origin_timestamp : Z) : Run Client bytes :=
  modify (set_vn 3);;;
  modify (set_mode 3);;;
  self <- get;;
  lift (Struct.pack _PACKET_FORMAT
          [ Z.lor (Z.shiftl (Z.land (vn self) 7) 3) (Z.land (mode self) 7);
            0; 0; 0;
            0; 0; 0;
            0;
            Z.shiftl (origin_timestamp + _EPOCH_DELTA) 32;
            0;
            0 ]).

(** [Client.unpack_response(data)].  [values[i]] is [nth i values 0]:
    a successful [unpack] of the packet format yields eleven values,
    so no index is out of range. *)
Definition unpack_response (data : bytes) : Run Client unit :=
  values <- lift (Struct.unpack _PACKET_FORMAT data);;
  let value (i : nat) : Z := nth i values 0 in
  modify (set_li (Z.land (Z.shiftr (value 0%nat) 6) 3));;;
  modify (set_vn (Z.land (Z.shiftr (value 0%nat) 3) 7));;;
  modify (set_mode (Z.land (value 0%nat) 7));;;
  modify (set_stratum (value 1%nat));;;
  modify (set_poll (value 2%nat));;;
  modify (set_precision (value 3%nat));;;
  modify (set_root_delay (value 4%nat));;;
  modify (set_root_dispersion (value 5%nat));;;
  let fields :=
    (Z.land (Z.shiftr (value 6%nat) 24) 255,
     Z.land (Z.shiftr (value 6%nat) 16) 255,
     Z.land (Z.shiftr (value 6%nat) 8) 255,
     Z.land (value 6%nat) 255) in
  self <- get;;
  (if (0 <=? stratum self) && (stratum self <=? 1) then
     modify (set_reference_id (RidStr (Str.rstrip (Str.format_cccc fields) Str.NUL)))
   else if (2 <=? stratum self) && (stratum self <=? 15) then
     modify (set_reference_id (RidStr (Str.format_dotted fields)))
   else
     modify (set_reference_id (RidStr "INVALID")));;;
  modify (set_reference_timestamp (Z.shiftr (value 7%nat) 32 - _EPOCH_DELTA));;;
  modify (set_origin_timestamp (Z.shiftr (value 8%nat) 32 - _EPOCH_DELTA));;;
  modify (set_receive_timestamp (Z.shiftr (value 9%nat) 32 - _EPOCH_DELTA));;;
  modify (set_transmit_timestamp (Z.shiftr (value 10%nat) 32 - _EPOCH_DELTA)).

(** [infos[0]] *)
Definition first_of {A} (l : list A) : result A :=
  match l with
  | x :: _ => inr x
  | [] => inl IndexError
  end.

(** The receive loop of [query_time]:
    [while True: data, src_addr = s.recvfrom(256); if src_addr == dest_addr: break].
    Every turn takes one datagram off the inbox, so the recursion is
    on [arriving], the datagrams that are still to come after the one
    being read; when a datagram was read and none is to come, the next
    read is the one that times out. *)
Fixpoint recv_loop (s : nat) (dest_addr : sockaddr) (arriving : list datagram)
  : Run World bytes :=
  received <- recvfrom s 256;;
  let '(data, src_addr) := received in
  if sockaddr_eqb src_addr dest_addr then ret data
  else
    match arriving with
    | [] => raise (OSError ETIMEDOUT)
    | _ :: later => recv_loop s dest_addr later
    end.

Definition recv_matching (s : nat) (dest_addr : sockaddr) : Run World bytes :=
  w <- get;;
  recv_loop s dest_addr (List.tl (inbox w)).

(** [Client.query_time()] *)
Definition query_time : Run (Client * World) Z :=
  self <- on_fst get;;
  infos <- on_snd (getaddrinfo (host self) (port self));;
  info <- lift (first_of infos);;
  let dest_addr := last_of info in
  s <- on_snd socket;;
  on_snd (settimeout s (timeout self));;;
  data <- on_fst (pack_request 0);;
  on_snd (sendto s data dest_addr);;;
  data <- on_snd (recv_matching s dest_addr);;
  on_snd (close s);;;
  on_fst (unpack_response data);;;
  self <- on_fst get;;
  ret (transmit_timestamp self).

End Ntp.

(* ================================================================= *)
(** ** Vocabulary for statements about packets on the wire *)

Module Wire.

Import Struct Socket Ntp.

(** [data[start:stop]] *)
Definition slice (data : bytes) (start stop : nat) : bytes :=
  firstn (stop - start) (skipn start data).

(** [data[i]], the unsigned value of the byte at offset [i]. *)
Definition byte_at (data : bytes) (i : nat) : Z := Z_of_byte (nth i data x00).

(** The format characters of [_PACKET_FORMAT]. *)
Definition packet_codes : list code :=
  [c_b; c_b; c_b; c_b; c_I; c_I; c_I; c_Q; c_Q; c_Q; c_Q].

(** The 64-bit timestamp field that starts at offset [off], and its
    high half, the whole seconds since 1900. *)
Definition timestamp_field (data : bytes) (off : nat) : Z :=
  from_bytes_big (slice data off (off + 8)).

Definition whole_seconds (data : bytes) (off : nat) : Z :=
  from_bytes_big (slice data off (off + 4)).

(** The thirteen attributes that [unpack_response] assigns. *)
Definition decoded_attributes (c : Client) :=
  (li c, vn c, mode c, stratum c, poll c, precision c, root_delay c,
   root_dispersion c, reference_id c, reference_timestamp c,
   origin_timestamp c, receive_timestamp c, transmit_timestamp c).

(** How a decoded timestamp attribute [got] relates to the field at
    offset [off] of the packet. *)
Definition decodes_timestamp (got : Z) (data : bytes) (off : nat) : Prop :=
  got = Z.shiftr (timestamp_field data off) 32 - 2208988800
  /\ got = whole_seconds data off - 2208988800
  /\ (whole_seconds data off = 2208988800 -> got = 0)
  /\ (whole_seconds data off = 2208988800 + 1700000000 -> got = 1700000000).

(** A 48-byte reply with the given first byte, stratum byte,
    reference-id bytes and transmit seconds; everything else zero. *)
Definition reply (first stratum_byte : byte) (rid : byte * byte * byte * byte)
                 (transmit_secs : Z) : bytes :=
  let '(r0, r1, r2, r3) := rid in
  [first; stratum_byte; x00; x00] ++ repeat x00 8 ++ [r0; r1; r2; r3]
  ++ repeat x00 24 ++ to_bytes_big 4 transmit_secs ++ repeat x00 4.

(** The twenty-four bytes before the origin timestamp of a request. *)
Definition request_head : bytes := x1b :: repeat x00 23.

Definition sample_reply : bytes :=
  reply x1c x02 (xc0, xa8, x01, x01) (2208988800 + 1700000000).

(** The server the sample worlds resolve every host name to. *)
Definition server : sockaddr := ("192.0.2.1"%string, 123).

Definition stranger : sockaddr := ("198.51.100.7"%string, 123).

Definition resolves_to_server (host : string) (port : Z) : result (list addrinfo) :=
  inr [(2, 2, 17, EmptyString, server)].

(** A device with no socket open, on a network where the listed
    datagrams arrive and sending fails as given. *)
Definition world (fault : option exn) (arrivals : list datagram) : World :=
  mkWorld resolves_to_server fault arrivals [] [] 0.

(** The server never answers. *)
Definition silent_world : World := world None [].

(** The socket that a [query_time] call started in world [w] opens is
    closed in world [w']. *)
Definition socket_released (w w' : World) : Prop :=
  ~ is_open (next_fd w) w'.

End Wire.

(* ================================================================= *)
(** ** The board: I2C bus, clock and the monad of the device code *)

Module Dev.

(** The exceptions of the device code: the [ValueError]s that it
    raises itself, and the exceptions of [Py.exn] that reach it. *)
Inductive error : Type :=
| Exn (e : exn)
| ValueError (msg : string).

(** [isinstance(e, OSError)] *)
Definition is_OSError (x : error) : bool :=
  match x with
  | Exn e => Py.is_OSError e
  | ValueError _ => false
  end.

Definition EIO : Z := 5.

Definition Do (S A : Type) : Type := S -> S * (error + A).

Definition ret {S A} (a : A) : Do S A := fun s => (s, inr a).

Definition raise {S A} (e : error) : Do S A := fun s => (s, inl e).

Definition bind {S A B} (m : Do S A) (k : A -> Do S B) : Do S B :=
  fun s =>
    match m s with
    | (s', inl e) => (s', inl e)
    | (s', inr a) => k a s'
    end.

(** [try: body  except Exception as e: handler(e)] *)
Definition try_except {S A} (body : Do S A) (handler : error -> Do S A) : Do S A :=
  fun s =>
    match body s with
    | (s', inl e) => handler e s'
    | (s', inr a) => (s', inr a)
    end.

(** A calendar tuple of eight integers, as [localtime] returns and
    [RTC.datetime] takes. *)
Definition datetime : Type := (Z * Z * Z * Z * Z * Z * Z * Z)%type.

(** What the code does to the board, in order.  A [str] passed as a
    buffer is kept as its list of code points. *)
Inductive event : Type :=
| WriteMem (addr memaddr : Z) (text : list Z)
| WriteTo (addr : Z) (buf : bytes)
| ReadFrom (addr : Z) (n : nat)
| Sleep (ms : Z)
| RtcSet (dt : datetime).

(** [acks] tells for the coming bus transfers whether the device
    acknowledges (after the list: it does); [rx] are the bytes the
    device will deliver to reads. *)
Record Board : Type := mkBoard {
  log : list event;
  acks : list bool;
  rx : list byte
}.

Definition emit (evs : list event) (b : Board) : Board :=
  mkBoard (log b ++ evs) (acks b) (rx b).

(** The start of a bus transfer: an unacknowledged address is
    [OSError(EIO)]. *)
Definition transfer : Do Board unit :=
  fun b =>
    match acks b with
    | [] => (b, inr tt)
    | true :: later => (mkBoard (log b) later (rx b), inr tt)
    | false :: later => (mkBoard (log b) later (rx b), inl (Exn (OSError EIO)))
    end.

(** [bus.writeto_mem(addr, memaddr, text)] *)
Definition writeto_mem (addr memaddr : Z) (text : list Z) : Do Board unit :=
  bind transfer (fun _ b => (emit [WriteMem addr memaddr text] b, inr tt)).

(** [bus.writeto(addr, buf)] *)
Definition writeto (addr : Z) (buf : bytes) : Do Board unit :=
  bind transfer (fun _ b => (emit [WriteTo addr buf] b, inr tt)).

(** [bus.readfrom(addr, n)]: exactly [n] bytes, or [OSError(EIO)] when
    the device has no more to deliver. *)
Definition readfrom (addr : Z) (n : nat) : Do Board bytes :=
  bind transfer (fun _ b =>
    if (n <=? List.length (rx b))%nat
    then (mkBoard (log b ++ [ReadFrom addr n]) (acks b) (skipn n (rx b)),
          inr (firstn n (rx b)))
    else (b, inl (Exn (OSError EIO)))).

(** [sleep_ms(ms)] *)
Definition sleep_ms (ms : Z) : Do Board unit :=
  fun b => (emit [Sleep ms] b, inr tt).

(** [chr(n)]: the one-character string of code point [n]. *)
Definition chr (n : Z) : error + list Z :=
  if (0 <=? n) && (n <? 1114112) then inr [n]
  else inl (ValueError "chr() arg not in range(0x110000)").

(** [bytearray(s, "utf-8")] for a string of code points below 256. *)
Fixpoint utf8 (s : string) : list Z :=
  match s with
  | EmptyString => []
  | String a rest =>
      let c := Z.of_N (N_of_ascii a) in
      if c <? 128 then c :: utf8 rest
      else Z.lor 192 (Z.shiftr c 6) :: Z.lor 128 (Z.land c 63) :: utf8 rest
  end.

End Dev.

Declare Scope dev_scope.
Delimit Scope dev_scope with dev.
Notation "x <- m ;; k" := (Dev.bind m (fun x => k))
  (at level 61, m at next level, right associativity) : dev_scope.
Notation "m ;;; k" := (Dev.bind m (fun _ => k))
  (at level 61, right associativity) : dev_scope.

(* ================================================================= *)
(** ** sht31.SHT31 *)

Module Sht31.

Import Dev Wire.

Local Open Scope dev_scope.

(** The float arithmetic of the runtime that the conversion uses.
    [of_int] is the conversion of an integer, which is also how the
    literals [175.0], [65535.0], ... are obtained. *)
Class FloatOps : Type := {
  float : Type;
  of_int : Z -> float;
  fmul : float -> float -> float;
  fdiv : float -> float -> float;
  fsub : float -> float -> float
}.

Record SHT31 : Type := mkSHT31 {
  address : Z;
  use_celcius : bool
}.

(** [SHT31.__init__(bus, address=68, use_celcius=False)] *)
Definition init (address : Z) (use_celcius : bool) : SHT31 :=
  mkSHT31 address use_celcius.

(** One turn of the inner loop of [calc_crc]. *)
Definition crc_shift (crc : Z) : Z :=
  if negb (Z.land crc 128 =? 0)
  then Z.lxor (Z.land (Z.shiftl crc 1) 255) 49
  else Z.land (Z.shiftl crc 1) 255.

(** One turn of the outer loop of [calc_crc], for the byte [b]. *)
Definition crc_update (crc : Z) (b : byte) : Z :=
  Nat.iter 8 crc_shift (Z.land (Z.lxor crc (Struct.Z_of_byte b)) 255).

(** [SHT31.calc_crc(buf)] *)
Definition calc_crc (buf : bytes) : Z := fold_left crc_update buf 255.

(** [buf[i]] *)
Definition item (buf : bytes) (i : nat) : Z := Struct.Z_of_byte (nth i buf x00).

Section Measure.

Context {F : FloatOps}.

(** [SHT31.take_measurement()] *)
Definition take_measurement (self : SHT31) : Do Board (float * float) :=
  let buf := [x2c; x06] in
  writeto (address self) buf;;;
  sleep_ms 100;;;
  buf <- readfrom (address self) 6;;
  let temp_crc := calc_crc (slice buf 0 2) in
  if negb (temp_crc =? item buf 2) then raise (ValueError "temp CRC mismatch")
  else
    let humidity_crc := calc_crc (slice buf 3 5) in
    if negb (humidity_crc =? item buf 5) then raise (ValueError "humidity CRC mismatch")
    else
      let temp :=
        if use_celcius self then
          fsub (fdiv (fmul (of_int (Z.shiftl (item buf 0) 8 + item buf 1)) (of_int 175))
                     (of_int 65535))
               (of_int 45)
        else
          fsub (fdiv (fmul (of_int (Z.shiftl (item buf 0) 8 + item buf 1)) (of_int 315))
                     (of_int 65535))
               (of_int 49) in
      let humidity :=
        fdiv (fmul (of_int (Z.shiftl (item buf 3) 8 + item buf 4)) (of_int 100))
             (of_int 65535) in
      ret (temp, humidity).

End Measure.

End Sht31.

(* ================================================================= *)
(** ** lcd1602.LCD1602 *)

Module Lcd1602.

Import Dev.

Local Open Scope dev_scope.

Definition INSTR_CLEAR_DISPLAY : Z := 1.
Definition INSTR_RETURN_HOME : Z := 2.
Definition INSTR_ENTRY_MODE_SET : Z := 4.
Definition INSTR_DISPLAY_CONTROL : Z := 8.
Definition INSTR_CURSOR_OR_DISPLAY_SHIFT : Z := 16.
Definition INSTR_FUNCTION_SET : Z := 32.
Definition INSTR_SET_CGRAM_ADDRESS : Z := 64.
Definition INSTR_SET_DDRAM_ADDRESS : Z := 128.

Definition DIR_LEFT : Z := 0.
Definition DIR_RIGHT : Z := 2.

Definition SHIFT_NONE : Z := 0.
Definition SHIFT_DIRECTION : Z := 1.

Definition DISPLAY_OFF : Z := 0.
Definition DISPLAY_ON : Z := 4.
Definition CURSOR_OFF : Z := 0.
Definition CURSOR_ON : Z := 2.
Definition BLINK_OFF : Z := 0.
Definition BLINK_ON : Z := 1.

Definition MOVE_RIGHT : Z := 4.
Definition MOVE_LEFT : Z := 0.
Definition MOVE_CURSOR : Z := 0.
Definition MOVE_DISPLAY : Z := 8.

Definition MODE_4BIT : Z := 0.
Definition MODE_8BIT : Z := 16.
Definition MODE_1LINE : Z := 0.
Definition MODE_2LINE : Z := 8.
Definition MODE_8DOTS : Z := 0.
Definition MODE_11DOTS : Z := 4.

Record LCD1602 : Type := mkLCD1602 {
  address : Z
}.

(** [LCD1602.write_to_ir(instr)] *)
Definition write_to_ir (self : LCD1602) (instr : Z) : Do Board unit :=
  match chr instr with
  | inl e => raise e
  | inr text => writeto_mem (address self) 128 text
  end.

(** [LCD1602.write_to_dr(data)] *)
Definition write_to_dr (self : LCD1602) (data : Z) : Do Board unit :=
  match chr data with
  | inl e => raise e
  | inr text => writeto_mem (address self) 64 text
  end.

(** [LCD1602.clear_display()] *)
Definition clear_display (self : LCD1602) : Do Board unit :=
  write_to_ir self INSTR_CLEAR_DISPLAY;;;
  sleep_ms 2.

(** [LCD1602.return_home()] *)
Definition return_home (self : LCD1602) : Do Board unit :=
  write_to_ir self INSTR_RETURN_HOME;;;
  sleep_ms 2.

(** [LCD1602.entry_mode_set(increment=True, shift=False)] *)
Definition entry_mode_set (self : LCD1602) (increment shift : bool) : Do Board unit :=
  let instr := INSTR_ENTRY_MODE_SET in
  let instr := if increment then Z.lor instr DIR_RIGHT else Z.lor instr DIR_LEFT in
  let instr := if shift then Z.lor instr SHIFT_DIRECTION else Z.lor instr SHIFT_NONE in
  write_to_ir self instr.

(** [LCD1602.display_control(display_on=True, cursor_on=True, blink_on=True)] *)
Definition display_control (self : LCD1602) (display_on cursor_on blink_on : bool)
  : Do Board unit :=
  let instr := INSTR_DISPLAY_CONTROL in
  let instr := if display_on then Z.lor instr DISPLAY_ON else Z.lor instr DISPLAY_OFF in
  let instr := if cursor_on then Z.lor instr CURSOR_ON else Z.lor instr CURSOR_OFF in
  let instr := if blink_on then Z.lor instr BLINK_ON else Z.lor instr BLINK_OFF in
  write_to_ir self instr.

(** [LCD1602.cursor_or_display_shift(move_display=False, move_right=False)] *)
Definition cursor_or_display_shift (self : LCD1602) (move_display move_right : bool)
  : Do Board unit :=
  let cmd := INSTR_CURSOR_OR_DISPLAY_SHIFT in
  let cmd := if move_display then Z.lor cmd MOVE_DISPLAY else Z.lor cmd MOVE_CURSOR in
  let cmd := if move_right then Z.lor cmd MOVE_RIGHT else Z.lor cmd MOVE_LEFT in
  write_to_ir self cmd.

(** [LCD1602.function_set(mode_8bit=False, two_lines=True, mode_11dots=False)] *)
Definition function_set (self : LCD1602) (mode_8bit two_lines mode_11dots : bool)
  : Do Board unit :=
  let instr := INSTR_FUNCTION_SET in
  let instr := if mode_8bit then Z.lor instr MODE_8BIT else Z.lor instr MODE_4BIT in
  let instr := if two_lines then Z.lor instr MODE_2LINE else Z.lor instr MODE_1LINE in
  let instr := if mode_11dots then Z.lor instr MODE_11DOTS else Z.lor instr MODE_8DOTS in
  write_to_ir self instr.

(** [LCD1602.set_cgram_address(address)] *)
Definition set_cgram_address (self : LCD1602) (addr : Z) : Do Board unit :=
  let instr := Z.lor INSTR_SET_CGRAM_ADDRESS (Z.land addr 63) in
  write_to_ir self instr.

(** [LCD1602.set_ddram_address(address)] *)
Definition set_ddram_address (self : LCD1602) (addr : Z) : Do Board unit :=
  let instr := Z.lor INSTR_SET_DDRAM_ADDRESS (Z.land addr 127) in
  write_to_ir self instr.

(** [bytearray([a, b])]: every item must be in [range(256)]. *)
Definition bytearray_of (items : list Z) : error + bytes :=
  if forallb (fun v => (0 <=? v) && (v <? 256)) items
  then inr (map Struct.byte_of_Z items)
  else inl (ValueError "byte must be in range(0, 256)").

(** [LCD1602.move_cursor(col, row)] *)
Definition move_cursor (self : LCD1602) (col row : Z) : Do Board unit :=
  let col := if row =? 0 then Z.lor col 128 else Z.lor col 192 in
  match bytearray_of [128; col] with
  | inl e => raise e
  | inr buf => writeto (address self) buf
  end.

(** The loop of [write] over the bytes of the string. *)
Fixpoint write_bytes (self : LCD1602) (xs : list Z) : Do Board unit :=
  match xs with
  | [] => ret tt
  | x :: later => write_to_dr self x;;; write_bytes self later
  end.

(** [LCD1602.write(s)] *)
Definition write (self : LCD1602) (s : string) : Do Board unit :=
  write_bytes self (utf8 s).

(** [LCD1602.__init__(bus, address=62, cursor_on=False, blink_on=False)] *)
Definition init (address : Z) (cursor_on blink_on : bool) : Do Board LCD1602 :=
  let self := mkLCD1602 address in
  Nat.iter 4 (fun before => before;;; function_set self false true false;;; sleep_ms 5)
           (ret tt);;;
  display_control self true cursor_on blink_on;;;
  entry_mode_set self true false;;;
  ret self.

End Lcd1602.

(* ================================================================= *)
(** ** demo.update_time, the caller of the client *)

Module Demo.

Import Dev Socket Ntp Lcd1602.

Local Open Scope dev_scope.

(** The values read from settings.json that [update_time] uses. *)
Record Settings : Type := mkSettings {
  host : string;
  port : Z;
  offset : Z
}.

(** The globals that [update_time] reads and writes: [ntp_time], and
    behind [wlan], [i2c0] and [rtc] the network and the board. *)
Record Device : Type := mkDevice {
  ntp_time : Z;
  net : World;
  board : Board
}.

Definition on_board {A} (m : Do Board A) : Do Device A :=
  fun d => let '(b', r) := m (board d) in (mkDevice (ntp_time d) (net d) b', r).

(** [client.query_time()] for a client object local to the caller. *)
Definition call_query_time (client : Client) : Do Device Z :=
  fun d =>
    let '((_, w'), r) := query_time (client, net d) in
    (mkDevice (ntp_time d) w' (board d),
     match r with
     | inl e => inl (Exn e)
     | inr t => inr t
     end).

(** [ntp_time = v] *)
Definition assign_ntp_time (v : Z) : Do Device unit :=
  fun d => (mkDevice v (net d) (board d), inr tt).

Definition read_ntp_time : Do Device Z := fun d => (d, inr (ntp_time d)).

(** [rtc.datetime(dt)]: the clock takes the tuple. *)
Definition rtc_datetime (dt : datetime) : Do Board unit :=
  fun b => (emit [RtcSet dt] b, inr tt).

Section App.

Variable settings : Settings.
Variable lcd1602 : LCD1602.

(** [time.localtime] of the runtime. *)
Variable localtime : Z -> error + datetime.

(** [update_time()] *)
Definition update_time : Do Device unit :=
  on_board (clear_display lcd1602);;;
  on_board (return_home lcd1602);;;
  on_board (write lcd1602 "Getting time...");;;
  let client := Ntp.init (host settings) (port settings) 5 in
  try_except
    (t <- call_query_time client;;
     assign_ntp_time (t + offset settings * 3600);;;
     on_board (clear_display lcd1602);;;
     on_board (return_home lcd1602);;;
     on_board (write lcd1602 "Got time");;;
     now <- read_ntp_time;;
     dt <- (fun d => (d, localtime now));;
     let '(dt0, dt1, dt2, dt3, dt4, dt5, dt6, dt7) := dt in
     on_board (rtc_datetime (dt0, dt1, dt2, dt6, dt3, dt4, dt5, dt7)))
    (fun e =>
     on_board (clear_display lcd1602);;;
     on_board (return_home lcd1602);;;
     on_board (write lcd1602 "No time");;;
     on_board (move_cursor lcd1602 0 1);;;
     if is_OSError e then on_board (write lcd1602 "Timeout")
     else on_board (write lcd1602 "Bad data"));;;
  on_board (sleep_ms 1000);;;
  on_board (clear_display lcd1602);;;
  on_board (return_home lcd1602).

End App.

End Demo.

(* ================================================================= *)
(** ** Further vocabulary *)

Module Terms.

(** [k] copies of the character [ch]. *)
Fixpoint padding (ch : ascii) (k : nat) : string :=
  match k with
  | O => EmptyString
  | S k' => String ch (padding ch k')
  end.

(** The string [s] ends with the character [ch]. *)
Definition ends_with (s : string) (ch : ascii) : Prop :=
  exists front, s = (front ++ String ch EmptyString)%string.

(** The code points written to the data register of the display (the
    characters it is asked to show), in order. *)
Fixpoint shown (evs : list Dev.event) : list Z :=
  match evs with
  | [] => []
  | Dev.WriteMem _ 64 text :: later => text ++ shown later
  | _ :: later => shown later
  end.

(** The tuples the clock was set to. *)
Fixpoint clock_sets (evs : list Dev.event) : list Dev.datetime :=
  match evs with
  | [] => []
  | Dev.RtcSet dt :: later => dt :: clock_sets later
  | _ :: later => clock_sets later
  end.

(** Exact rational arithmetic in the place of the runtime's floats, to
    run the sensor code on examples. *)
Definition rational_arithmetic : Sht31.FloatOps :=
  {| Sht31.float := Q;
     Sht31.of_int := inject_Z;
     Sht31.fmul := Qmult;
     Sht31.fdiv := Qdiv;
     Sht31.fsub := Qminus |}.

(** The 256 values of a byte. *)
Definition all_bytes : list Z := map Z.of_nat (seq 0 256).

Definition in_byte_range (v : Z) : bool := (0 <=? v) && (v <? 256).

(** The eight shifts that [calc_crc] applies per byte, on a checksum
    already reduced to a byte. *)
Definition shifts (c : Z) : Z := Nat.iter 8 Sht31.crc_shift c.

(** The device after the board has logged the events [evs]. *)
Definition logged (evs : list Dev.event) (d : Demo.Device) : Demo.Device :=
  Demo.mkDevice (Demo.ntp_time d) (Demo.net d) (Dev.emit evs (Demo.board d)).

(** What the display is sent to show a message from the top left:
    clear, home, then the characters. *)
Definition banner (addr : Z) (s : string) : list Dev.event :=
  [Dev.WriteMem addr 128 [1]; Dev.Sleep 2; Dev.WriteMem addr 128 [2]; Dev.Sleep 2]
  ++ map (fun x => Dev.WriteMem addr 64 [x]) (Dev.utf8 s).

(** Every coming bus transfer is acknowledged. *)
Definition responsive (b : Dev.Board) : Prop := Dev.acks b = [].

(** The characters of a string as code points. *)
Fixpoint code_points (s : string) : list Z :=
  match s with
  | EmptyString => []
  | String a rest => Z.of_N (N_of_ascii a) :: code_points rest
  end.

End Terms.

(* ================================================================= *)
(** ** Facts about the byte codec *)

Module StructFacts.

Import Struct.

Lemma Z_of_byte_range (b : byte) : 0 <= Z_of_byte b < 256.
Proof.
  unfold Z_of_byte. pose proof (Byte.to_N_bounded b) as Hb. lia.
Qed.

Lemma Z_of_byte_of_Z (v : Z) : Z_of_byte (byte_of_Z v) = v mod 256.
Proof.
  unfold Z_of_byte, byte_of_Z.
  assert (Hm : 0 <= v mod 256 < 256) by (apply Z.mod_pos_bound; lia).
  destruct (Byte.of_N (Z.to_N (v mod 256))) as [b|] eqn:E.
  - apply Byte.to_of_N in E. rewrite E. lia.
  - apply Byte.of_N_None_iff in E. lia.
Qed.

Lemma length_to_bytes_big (n : nat) : forall v, List.length (to_bytes_big n v) = n.
Proof.
  induction n as [|k IH]; intro v; simpl.
  - reflexivity.
  - rewrite length_app, IH. simpl. lia.
Qed.

Lemma from_bytes_big_snoc (bs : bytes) (b : byte) :
  from_bytes_big (bs ++ [b]) = from_bytes_big bs * 256 + Z_of_byte b.
Proof.
  unfold from_bytes_big. rewrite fold_left_app. reflexivity.
Qed.

Lemma from_bytes_big_range (bs : bytes) :
  0 <= from_bytes_big bs < 256 ^ Z.of_nat (List.length bs).
Proof.
  induction bs as [|b bs IH] using rev_ind.
  - cbn. lia.
  - rewrite from_bytes_big_snoc, length_app. cbn [List.length].
    replace (Z.of_nat (List.length bs + 1)) with (Z.of_nat (List.length bs) + 1) by lia.
    rewrite Z.pow_add_r by lia.
    pose proof (Z_of_byte_range b). lia.
Qed.

(** Concatenation of byte strings is concatenation of base-256 digits. *)
Lemma from_bytes_big_app (hi lo : bytes) :
  from_bytes_big (hi ++ lo)
  = from_bytes_big hi * 256 ^ Z.of_nat (List.length lo) + from_bytes_big lo.
Proof.
  induction lo as [|b lo IH] using rev_ind.
  - rewrite app_nil_r. cbn. lia.
  - rewrite app_assoc, !from_bytes_big_snoc, IH, length_app. cbn [List.length].
    replace (Z.of_nat (List.length lo + 1)) with (Z.of_nat (List.length lo) + 1) by lia.
    rewrite Z.pow_add_r by lia. lia.
Qed.

(** Decoding what was encoded gives the value back, reduced to the
    width of the field. *)
Lemma from_to_bytes_big (n : nat) :
  forall v, from_bytes_big (to_bytes_big n v) = v mod 256 ^ Z.of_nat n.
Proof.
  induction n as [|k IH]; intro v.
  - cbn. now rewrite Z.mod_1_r.
  - cbn [to_bytes_big]. rewrite from_bytes_big_snoc, IH, Z_of_byte_of_Z.
    replace (Z.of_nat (S k)) with (1 + Z.of_nat k) by lia.
    rewrite Z.pow_add_r by lia. change (256 ^ 1) with 256.
    rewrite (Z.rem_mul_r v 256 (256 ^ Z.of_nat k)) by lia. lia.
Qed.

Lemma decode_unsigned_encode (c : code) (v : Z) :
  signed c = false -> in_range c v = true -> decode c (encode c v) = v.
Proof.
  intros Hs Hr. unfold decode, encode. rewrite Hs. cbn [andb].
  rewrite from_to_bytes_big.
  unfold in_range, lo, hi in Hr. rewrite Hs in Hr.
  apply andb_prop in Hr. destruct Hr as [Hl Hh].
  apply Z.leb_le in Hl. apply Z.leb_le in Hh.
  apply Z.mod_small. unfold bits in Hh.
  replace (256 ^ Z.of_nat (size c)) with (2 ^ (8 * Z.of_nat (size c))).
  - lia.
  - rewrite Z.pow_mul_r by lia. reflexivity.
Qed.

Lemma length_unpack_fields (cs : list code) :
  forall data, List.length (unpack_fields cs data) = List.length cs.
Proof.
  induction cs as [|c cs IH]; intro data; cbn.
  - reflexivity.
  - now rewrite IH.
Qed.

(** What [unpack] reads through a signed-byte format character, in
    terms of the wire byte. *)
Lemma decode_signed_byte (b : byte) :
  decode c_b [b] = if Z_of_byte b <? 128 then Z_of_byte b else Z_of_byte b - 256.
Proof. destruct b; reflexivity. Qed.

End StructFacts.

(* ================================================================= *)
(** ** The packet codec of the client *)

Module NtpFacts.

Import Struct Socket Ntp Wire StructFacts.

Lemma parse_packet_format : parse_format _PACKET_FORMAT = Some packet_codes.
Proof. reflexivity. Qed.

Lemma calcsize_packet : calcsize packet_codes = 48%nat.
Proof. reflexivity. Qed.

(** [unpack] on the packet format: the buffers of 48 bytes or more
    decode. *)
Lemma unpack_packet (data : bytes) :
  unpack _PACKET_FORMAT data
  = if (48 <=? List.length data)%nat then inr (unpack_fields packet_codes data)
    else inl (ValueError "buffer too small").
Proof. reflexivity. Qed.

Lemma unpack_packet_long (data : bytes) :
  (48 <= List.length data)%nat ->
  unpack _PACKET_FORMAT data = inr (unpack_fields packet_codes data).
Proof.
  intro H. rewrite unpack_packet.
  destruct (Nat.leb_spec 48 (List.length data)); [reflexivity | lia].
Qed.

Lemma unpack_packet_ok (data : bytes) :
  List.length data = 48%nat ->
  unpack _PACKET_FORMAT data = inr (unpack_fields packet_codes data).
Proof. intro H. apply unpack_packet_long. lia. Qed.

Lemma unpack_packet_short (data : bytes) :
  (List.length data < 48)%nat ->
  unpack _PACKET_FORMAT data = inl (ValueError "buffer too small").
Proof.
  intro H. rewrite unpack_packet.
  destruct (Nat.leb_spec 48 (List.length data)); [lia | reflexivity].
Qed.

(** The value at index [i] of the unpacked tuple is the field that
    starts at the sum of the sizes before it. *)
Lemma value_at (data : bytes) :
  let values := unpack_fields packet_codes data in
  nth 0 values 0 = decode c_b (slice data 0 1)
  /\ nth 1 values 0 = decode c_b (slice data 1 2)
  /\ nth 6 values 0 = decode c_I (slice data 12 16)
  /\ nth 7 values 0 = decode c_Q (slice data 16 24)
  /\ nth 8 values 0 = decode c_Q (slice data 24 32)
  /\ nth 9 values 0 = decode c_Q (slice data 32 40)
  /\ nth 10 values 0 = decode c_Q (slice data 40 48).
Proof.
  unfold slice. cbn [packet_codes unpack_fields nth size].
  rewrite !skipn_skipn. cbn [Nat.add Nat.sub].
  repeat split; reflexivity.
Qed.


Lemma firstn_plus {A} (n m : nat) :
  forall l : list A, firstn (n + m) l = firstn n l ++ firstn m (skipn n l).
Proof.
  induction n as [|n IH]; intros [|x l]; cbn; try reflexivity.
  - now rewrite firstn_nil.
  - now rewrite IH.
Qed.

Lemma slice_split (data : bytes) (a b c : nat) :
  (a <= b <= c)%nat -> slice data a c = slice data a b ++ slice data b c.
Proof.
  intros [Hab Hbc]. unfold slice.
  replace (c - a)%nat with ((b - a) + (c - b))%nat by lia.
  rewrite firstn_plus, skipn_skipn.
  replace (b - a + a)%nat with b by lia. reflexivity.
Qed.

Lemma length_slice (data : bytes) (a b : nat) :
  (b <= List.length data)%nat -> List.length (slice data a b) = (b - a)%nat.
Proof.
  intro H. unfold slice. rewrite length_firstn, length_skipn. lia.
Qed.

Lemma slice_one (data : bytes) (i : nat) :
  (i < List.length data)%nat -> slice data i (S i) = [nth i data x00].
Proof.
  unfold slice. replace (S i - i)%nat with 1%nat by lia.
  revert data. induction i as [|i IH]; intros [|b data] H; cbn in H; try lia.
  - reflexivity.
  - cbn [skipn nth]. apply IH. lia.
Qed.

Lemma decode_Q (bs : bytes) : decode c_Q bs = from_bytes_big bs.
Proof. reflexivity. Qed.

Lemma decode_I (bs : bytes) : decode c_I bs = from_bytes_big bs.
Proof. reflexivity. Qed.

(** Shifting a 64-bit field right by 32 leaves its first four bytes. *)
Lemma shiftr_32_high (high low : bytes) :
  List.length low = 4%nat ->
  Z.shiftr (from_bytes_big (high ++ low)) 32 = from_bytes_big high.
Proof.
  intro H. rewrite from_bytes_big_app, H, Z.shiftr_div_pow2 by lia.
  pose proof (from_bytes_big_range low) as Hr. rewrite H in Hr.
  change (256 ^ Z.of_nat 4) with (2 ^ 32) in *.
  rewrite Z.div_add_l by lia. rewrite (Z.div_small (from_bytes_big low)) by lia. lia.
Qed.

Lemma timestamp_high_half (data : bytes) (off : nat) :
  (off + 8 <= List.length data)%nat ->
  Z.shiftr (timestamp_field data off) 32 = whole_seconds data off.
Proof.
  intro H. unfold timestamp_field, whole_seconds.
  rewrite (slice_split data off (off + 4) (off + 8)) by lia.
  apply shiftr_32_high. rewrite length_slice by lia. lia.
Qed.

(** Runs [unpack_response] on a buffer known to be 48 bytes long and
    splits on the stratum tests, leaving projections of a client built
    by the assignments. *)
Ltac run_unpack H :=
  unfold unpack_response, bind, lift, modify, get;
  rewrite (unpack_packet_ok _ H);
  cbn [fst snd stratum set_stratum set_li set_vn set_mode set_poll
       set_precision set_root_delay set_root_dispersion];
  repeat match goal with
         | |- context [if ?b then _ else _] => destruct b eqn:?
         end;
  cbn [fst snd].

Section Unpacked.

Variables (self : Client) (data : bytes).
Hypothesis Hlen : List.length data = 48%nat.

Let values := unpack_fields packet_codes data.
Let self' := fst (unpack_response data self).

Lemma unpack_response_returns : snd (unpack_response data self) = inr tt.
Proof. run_unpack Hlen; reflexivity. Qed.

Lemma unpacked_header :
  li self' = Z.land (Z.shiftr (nth 0 values 0) 6) 3
  /\ vn self' = Z.land (Z.shiftr (nth 0 values 0) 3) 7
  /\ mode self' = Z.land (nth 0 values 0) 7.
Proof. subst self'. run_unpack Hlen; repeat split; reflexivity. Qed.

Lemma unpacked_stratum : stratum self' = nth 1 values 0.
Proof. subst self'. run_unpack Hlen; reflexivity. Qed.

Lemma unpacked_reference_id :
  let fields :=
    (Z.land (Z.shiftr (nth 6 values 0) 24) 255,
     Z.land (Z.shiftr (nth 6 values 0) 16) 255,
     Z.land (Z.shiftr (nth 6 values 0) 8) 255,
     Z.land (nth 6 values 0) 255) in
  reference_id self' =
    if (0 <=? nth 1 values 0) && (nth 1 values 0 <=? 1) then
      RidStr (Str.rstrip (Str.format_cccc fields) Str.NUL)
    else if (2 <=? nth 1 values 0) && (nth 1 values 0 <=? 15) then
      RidStr (Str.format_dotted fields)
    else RidStr "INVALID".
Proof.
  subst self'. unfold unpack_response, bind, lift, modify, get.
  rewrite (unpack_packet_ok _ Hlen). fold values.
  cbn [fst snd stratum set_stratum set_li set_vn set_mode set_poll
       set_precision set_root_delay set_root_dispersion].
  destruct ((0 <=? nth 1 values 0) && (nth 1 values 0 <=? 1)).
  - reflexivity.
  - destruct ((2 <=? nth 1 values 0) && (nth 1 values 0 <=? 15)); reflexivity.
Qed.

Lemma unpacked_timestamps :
  reference_timestamp self' = Z.shiftr (nth 7 values 0) 32 - _EPOCH_DELTA
  /\ origin_timestamp self' = Z.shiftr (nth 8 values 0) 32 - _EPOCH_DELTA
  /\ receive_timestamp self' = Z.shiftr (nth 9 values 0) 32 - _EPOCH_DELTA
  /\ transmit_timestamp self' = Z.shiftr (nth 10 values 0) 32 - _EPOCH_DELTA.
Proof. subst self'. run_unpack Hlen; repeat split; reflexivity. Qed.

End Unpacked.

End NtpFacts.

(* ================================================================= *)
(** ** Properties of [unpack_response] *)

Module UnpackSpec.

Import Struct Socket Ntp Wire StructFacts NtpFacts.

(** The header bits survive the signed read of the first byte. *)
Lemma header_bits_of_signed_byte (b : byte) :
  Z.land (Z.shiftr (decode c_b [b]) 6) 3 = Z.land (Z.shiftr (Z_of_byte b) 6) 3
  /\ Z.land (Z.shiftr (decode c_b [b]) 3) 7 = Z.land (Z.shiftr (Z_of_byte b) 3) 7
  /\ Z.land (decode c_b [b]) 7 = Z.land (Z_of_byte b) 7.
Proof. destruct b; repeat split; reflexivity. Qed.

(** C7: for every 48-byte response, [unpack_response] sets
    [li] to bits 6-7, [vn] to bits 3-5 and [mode] to bits 0-2 of the
    first byte of the packet, although that byte is read through the
    signed format character; a first byte of 0xDC gives [li = 3],
    [vn = 3], [mode = 4]. *)
Theorem C7_header_fields (self : Client) (data : bytes) :
  List.length data = 48%nat ->
  let self' := fst (unpack_response data self) in
  let first := byte_at data 0 in
  li self' = Z.land (Z.shiftr first 6) 3
  /\ vn self' = Z.land (Z.shiftr first 3) 7
  /\ mode self' = Z.land first 7
  /\ (first = 220 -> li self' = 3 /\ vn self' = 3 /\ mode self' = 4).
Proof.
  intros Hlen self' first.
  destruct (unpacked_header self data Hlen) as (Hli & Hvn & Hmode).
  destruct (value_at data) as (H0 & _).
  rewrite H0, slice_one in Hli, Hvn, Hmode by lia.
  destruct (header_bits_of_signed_byte (nth 0 data x00)) as (B6 & B3 & B0).
  fold self' in Hli, Hvn, Hmode.
  rewrite B6 in Hli. rewrite B3 in Hvn. rewrite B0 in Hmode.
  fold (byte_at data 0) in Hli, Hvn, Hmode. fold first in Hli, Hvn, Hmode.
  split; [assumption | split; [assumption | split; [assumption |]]].
  intro E. rewrite Hli, Hvn, Hmode, E. repeat split; reflexivity.
Qed.

(** A reply whose first byte is 0xDC. *)
Lemma C7_header_fields_witness :
  let self' := fst (unpack_response (reply xdc x01 (x4c, x4f, x43, x4c) 0) default_client) in
  li self' = 3 /\ vn self' = 3 /\ mode self' = 4.
Proof.
  apply (C7_header_fields default_client (reply xdc x01 (x4c, x4f, x43, x4c) 0));
    reflexivity.
Defined.


(** The stratum attribute in terms of the wire byte. *)
Lemma stratum_of_wire (self : Client) (data : bytes) :
  List.length data = 48%nat ->
  stratum (fst (unpack_response data self))
  = if byte_at data 1 <? 128 then byte_at data 1 else byte_at data 1 - 256.
Proof.
  intro Hlen. rewrite (unpacked_stratum self data Hlen).
  destruct (value_at data) as (_ & H1 & _).
  rewrite H1, slice_one by lia. apply decode_signed_byte.
Qed.

(** C2 fails as stated: a reply whose stratum byte is 0x80 is decoded
    to the stratum -128, which is neither in 0..255 nor the wire
    byte 128. *)
Lemma C2_stratum_unsigned_counterexample :
  let data := reply x1c x80 (x00, x00, x00, x00) 0 in
  let self' := fst (unpack_response data default_client) in
  List.length data = 48%nat
  /\ byte_at data 1 = 128
  /\ stratum self' = -128
  /\ ~ (0 <= stratum self' <= 255 /\ stratum self' = byte_at data 1).
Proof.
  cbv zeta. repeat split; try reflexivity.
  intros [[H _] _]. vm_compute in H. apply H. reflexivity.
Qed.

(** C2, amended: for every 48-byte response, [unpack_response] decodes
    the stratum field (byte 1) as an 8-bit signed value: the attribute
    is in the range -128..127; it equals the wire byte when that byte
    is below 128 and the wire byte minus 256 otherwise. *)
Theorem C2_stratum_signed (self : Client) (data : bytes) :
  List.length data = 48%nat ->
  let self' := fst (unpack_response data self) in
  -128 <= stratum self' <= 127
  /\ (byte_at data 1 < 128 -> stratum self' = byte_at data 1)
  /\ (128 <= byte_at data 1 -> stratum self' = byte_at data 1 - 256).
Proof.
  intros Hlen self'. subst self'. rewrite (stratum_of_wire self data Hlen).
  pose proof (Z_of_byte_range (nth 1 data x00)) as Hr. fold (byte_at data 1) in Hr.
  destruct (Z.ltb_spec (byte_at data 1) 128); repeat split; lia.
Qed.

Lemma C2_stratum_signed_witness :
  let data := reply x1c x80 (x00, x00, x00, x00) 0 in
  let self' := fst (unpack_response data default_client) in
  -128 <= stratum self' <= 127
  /\ (byte_at data 1 < 128 -> stratum self' = byte_at data 1)
  /\ (128 <= byte_at data 1 -> stratum self' = byte_at data 1 - 256).
Proof.
  exact (C2_stratum_signed default_client
           (reply x1c x80 (x00, x00, x00, x00) 0) eq_refl).
Defined.

(** [unpack] reads the first bytes of the buffer only. *)
Lemma unpack_fields_prefix (cs : list code) :
  forall (n : nat) (data : bytes),
    (calcsize cs <= n)%nat ->
    unpack_fields cs (firstn n data) = unpack_fields cs data.
Proof.
  induction cs as [|c cs IH]; intros n data Hn; cbn [unpack_fields calcsize] in *.
  - reflexivity.
  - rewrite firstn_firstn, Nat.min_l by lia.
    rewrite skipn_firstn_comm, IH by lia. reflexivity.
Qed.

(** A buffer of more than 48 bytes is decoded like its first 48. *)
Lemma unpack_response_long (self : Client) (data : bytes) :
  (48 <= List.length data)%nat ->
  unpack_response data self = unpack_response (firstn 48 data) self
  /\ snd (unpack_response data self) = inr tt.
Proof.
  intro Hlen.
  assert (Hcut : List.length (firstn 48 data) = 48%nat)
    by (rewrite length_firstn; lia).
  assert (Heq : unpack_response data self = unpack_response (firstn 48 data) self).
  { unfold unpack_response, bind, lift.
    rewrite (unpack_packet_long data Hlen), (unpack_packet_ok _ Hcut).
    rewrite (unpack_fields_prefix packet_codes 48 data) by (cbn; lia).
    reflexivity. }
  split; [exact Heq|]. rewrite Heq. apply (unpack_response_returns _ _ Hcut).
Qed.

Lemma unpack_response_short (self : Client) (data : bytes) :
  (List.length data < 48)%nat ->
  unpack_response data self = (self, inl (ValueError "buffer too small")).
Proof.
  intro Hlen. unfold unpack_response, bind, lift.
  rewrite (unpack_packet_short data Hlen). reflexivity.
Qed.







Lemma decodes_timestamp_intro (got : Z) (data : bytes) (off : nat) :
  (off + 8 <= List.length data)%nat ->
  got = Z.shiftr (timestamp_field data off) 32 - _EPOCH_DELTA ->
  decodes_timestamp got data off.
Proof.
  intros Hoff Hgot. unfold decodes_timestamp.
  change _EPOCH_DELTA with 2208988800 in Hgot.
  pose proof (timestamp_high_half data off Hoff) as Hh.
  repeat split; try lia.
Qed.

(** C5: for every 48-byte response, each of the four timestamp
    attributes is the 64-bit field shifted right by 32 bits minus
    2208988800, that is the whole seconds of the field minus the epoch
    delta: whole seconds 2208988800 decode to 0 and
    2208988800 + 1700000000 to 1700000000, for the reference, origin,
    receive and transmit timestamps alike. *)
Theorem C5_timestamps_decoded (self : Client) (data : bytes) :
  List.length data = 48%nat ->
  let '(self', outcome) := unpack_response data self in
  outcome = inr tt
  /\ decodes_timestamp (reference_timestamp self') data 16
  /\ decodes_timestamp (origin_timestamp self') data 24
  /\ decodes_timestamp (receive_timestamp self') data 32
  /\ decodes_timestamp (transmit_timestamp self') data 40.
Proof.
  intro Hlen.
  pose proof (unpack_response_returns self data Hlen) as Hret.
  destruct (unpacked_timestamps self data Hlen) as (Hr & Ho & Hrx & Htx).
  destruct (value_at data) as (_ & _ & _ & V7 & V8 & V9 & V10).
  rewrite V7, decode_Q in Hr. rewrite V8, decode_Q in Ho.
  rewrite V9, decode_Q in Hrx. rewrite V10, decode_Q in Htx.
  destruct (unpack_response data self) as [self' outcome].
  cbn [fst snd] in *.
  split; [assumption|].
  repeat split; apply decodes_timestamp_intro; try lia; assumption.
Qed.

Lemma C5_timestamps_decoded_witness :
  let '(self', outcome) := unpack_response sample_reply default_client in
  outcome = inr tt
  /\ decodes_timestamp (reference_timestamp self') sample_reply 16
  /\ decodes_timestamp (origin_timestamp self') sample_reply 24
  /\ decodes_timestamp (receive_timestamp self') sample_reply 32
  /\ decodes_timestamp (transmit_timestamp self') sample_reply 40.
Proof.
  exact (C5_timestamps_decoded default_client sample_reply eq_refl).
Defined.


Example sample_reply_transmit :
  transmit_timestamp (fst (unpack_response sample_reply default_client)) = 1700000000.
Proof. reflexivity. Qed.

(** The four octets that the shifts and masks cut out of the 32-bit
    reference-id value are the four bytes of the field. *)
Lemma refid_octets (a b c d : byte) :
  let v := from_bytes_big [a; b; c; d] in
  Z.land (Z.shiftr v 24) 255 = Z_of_byte a
  /\ Z.land (Z.shiftr v 16) 255 = Z_of_byte b
  /\ Z.land (Z.shiftr v 8) 255 = Z_of_byte c
  /\ Z.land v 255 = Z_of_byte d.
Proof.
  intro v.
  assert (Hv : v = ((Z_of_byte a * 256 + Z_of_byte b) * 256 + Z_of_byte c) * 256
                   + Z_of_byte d) by reflexivity.
  pose proof (Z_of_byte_range a). pose proof (Z_of_byte_range b).
  pose proof (Z_of_byte_range c). pose proof (Z_of_byte_range d).
  change 255 with (Z.ones 8). rewrite !Z.land_ones, !Z.shiftr_div_pow2 by lia.
  change (2 ^ 8) with 256. change (2 ^ 16) with 65536. change (2 ^ 24) with 16777216.
  rewrite Hv. repeat split.
  - rewrite Z.mod_small; [|split]; try (apply Z.div_le_lower_bound; lia);
      try (apply Z.div_lt_upper_bound; lia).
    symmetry. apply Z.div_unique with (r := (Z_of_byte b * 256 + Z_of_byte c) * 256 + Z_of_byte d); lia.
  - symmetry. apply Z.mod_unique with (q := Z_of_byte a); [lia|].
    symmetry. apply Z.div_unique with (r := Z_of_byte c * 256 + Z_of_byte d); lia.
  - symmetry. apply Z.mod_unique with (q := Z_of_byte a * 256 + Z_of_byte b); [lia|].
    symmetry. apply Z.div_unique with (r := Z_of_byte d); lia.
  - symmetry.
    apply Z.mod_unique with (q := (Z_of_byte a * 256 + Z_of_byte b) * 256 + Z_of_byte c); lia.
Qed.

Lemma refid_slice (data : bytes) :
  List.length data = 48%nat ->
  slice data 12 16 = [nth 12 data x00; nth 13 data x00; nth 14 data x00; nth 15 data x00].
Proof.
  intro Hlen.
  rewrite (slice_split data 12 13 16), (slice_split data 13 14 16),
    (slice_split data 14 15 16) by lia.
  rewrite !slice_one by lia. reflexivity.
Qed.

(** C6: for every 48-byte response, [reference_id] follows from the
    stratum: stratum 1 with the bytes 'L','O','C','L' gives "LOCL",
    stratum 2 with the bytes 192,168,1,1 gives "192.168.1.1", and a
    stratum outside 0..15 (16, for one) gives "INVALID" whatever the
    reference-id bytes are.  In general a stratum of 0 or 1 gives the
    four bytes as characters without trailing NULs, and a stratum of
    2..15 gives the four bytes in dotted decimal. *)
Theorem C6_reference_id (self : Client) (data : bytes) :
  List.length data = 48%nat ->
  let self' := fst (unpack_response data self) in
  let octets := (byte_at data 12, byte_at data 13, byte_at data 14, byte_at data 15) in
  (byte_at data 1 = 1 -> slice data 12 16 = [x4c; x4f; x43; x4c] ->
   reference_id self' = RidStr "LOCL")
  /\ (byte_at data 1 = 2 -> slice data 12 16 = [xc0; xa8; x01; x01] ->
      reference_id self' = RidStr "192.168.1.1")
  /\ (byte_at data 1 = 16 -> reference_id self' = RidStr "INVALID")
  /\ (~ 0 <= stratum self' <= 15 -> reference_id self' = RidStr "INVALID")
  /\ (~ 0 <= byte_at data 1 <= 15 -> reference_id self' = RidStr "INVALID")
  /\ (0 <= stratum self' <= 1 ->
      reference_id self' = RidStr (Str.rstrip (Str.format_cccc octets) Str.NUL))
  /\ (2 <= stratum self' <= 15 ->
      reference_id self' = RidStr (Str.format_dotted octets)).
Proof.
  intros Hlen self' octets.
  pose proof (unpacked_reference_id self data Hlen) as Hrid.
  pose proof (unpacked_stratum self data Hlen) as Hst.
  pose proof (stratum_of_wire self data Hlen) as Hwire.
  cbv zeta in Hrid. fold self' in Hrid, Hst, Hwire.
  rewrite <- Hst in Hrid.
  destruct (value_at data) as (_ & _ & V6 & _).
  rewrite V6, decode_I in Hrid. clear V6 Hst.
  assert (Hinvalid : ~ 0 <= stratum self' <= 15 -> reference_id self' = RidStr "INVALID").
  { intro Hout. rewrite Hrid.
    destruct (Z.leb_spec 0 (stratum self')), (Z.leb_spec (stratum self') 1),
      (Z.leb_spec 2 (stratum self')), (Z.leb_spec (stratum self') 15);
      cbn [andb]; try reflexivity; lia. }
  assert (Hsmall : byte_at data 1 < 128 -> stratum self' = byte_at data 1).
  { intro Hlt. rewrite Hwire. destruct (Z.ltb_spec (byte_at data 1) 128); [reflexivity | lia]. }
  repeat apply conj.
  - intros Hs Hb. rewrite Hrid, Hb, (Hsmall ltac:(lia)), Hs. reflexivity.
  - intros Hs Hb. rewrite Hrid, Hb, (Hsmall ltac:(lia)), Hs. reflexivity.
  - intro Hs. apply Hinvalid. rewrite (Hsmall ltac:(lia)). lia.
  - exact Hinvalid.
  - intro Hout. apply Hinvalid. rewrite Hwire.
    pose proof (Z_of_byte_range (nth 1 data x00)) as Hr. fold (byte_at data 1) in Hr.
    destruct (Z.ltb_spec (byte_at data 1) 128); lia.
  - intro Hs. rewrite Hrid, (refid_slice data Hlen).
    destruct (refid_octets (nth 12 data x00) (nth 13 data x00)
                (nth 14 data x00) (nth 15 data x00)) as (Ea & Eb & Ec & Ed).
    rewrite Ea, Eb, Ec, Ed.
    destruct (Z.leb_spec 0 (stratum self')), (Z.leb_spec (stratum self') 1);
      cbn [andb]; try lia. reflexivity.
  - intro Hs. rewrite Hrid, (refid_slice data Hlen).
    destruct (refid_octets (nth 12 data x00) (nth 13 data x00)
                (nth 14 data x00) (nth 15 data x00)) as (Ea & Eb & Ec & Ed).
    rewrite Ea, Eb, Ec, Ed.
    destruct (Z.leb_spec 0 (stratum self')), (Z.leb_spec (stratum self') 1),
      (Z.leb_spec 2 (stratum self')), (Z.leb_spec (stratum self') 15);
      cbn [andb]; try lia. reflexivity.
Qed.


Lemma C6_reference_id_witness :
  reference_id (fst (unpack_response (reply x1c x01 (x4c, x4f, x43, x4c) 0) default_client))
  = RidStr "LOCL"
  /\ reference_id (fst (unpack_response sample_reply default_client))
     = RidStr "192.168.1.1"
  /\ reference_id (fst (unpack_response (reply x1c x10 (x4c, x4f, x43, x4c) 0) default_client))
     = RidStr "INVALID".
Proof.
  split; [|split].
  - destruct (C6_reference_id default_client
                (reply x1c x01 (x4c, x4f, x43, x4c) 0) eq_refl) as (Hlocl & _).
    apply Hlocl; reflexivity.
  - destruct (C6_reference_id default_client sample_reply eq_refl) as (_ & Hdot & _).
    apply Hdot; reflexivity.
  - destruct (C6_reference_id default_client
                (reply x1c x10 (x4c, x4f, x43, x4c) 0) eq_refl) as (_ & _ & Hinv & _).
    apply Hinv; reflexivity.
Defined.

(** Trailing NULs of a short clock tag are dropped. *)
Example reference_id_gps :
  reference_id (fst (unpack_response (reply x1c x01 (x47, x50, x53, x00) 0) default_client))
  = RidStr "GPS".
Proof. reflexivity. Qed.

End UnpackSpec.

(* ================================================================= *)
(** ** Properties of [pack_request] *)

Module PackSpec.

Import Struct Socket Ntp Wire StructFacts NtpFacts.

Lemma pack_request_run (T : Z) (self : Client) :
  pack_request T self
  = (set_mode 3 (set_vn 3 self),
     pack _PACKET_FORMAT
       [27; 0; 0; 0; 0; 0; 0; 0; Z.shiftl (T + _EPOCH_DELTA) 32; 0; 0]).
Proof. reflexivity. Qed.

Lemma pack_packet (V : Z) :
  pack _PACKET_FORMAT [27; 0; 0; 0; 0; 0; 0; 0; V; 0; 0]
  = inr (request_head ++ to_bytes_big 8 V ++ repeat x00 16).
Proof. reflexivity. Qed.

(** The shifted origin timestamp fits the unsigned 64-bit field
    exactly when the NTP seconds fit 32 bits. *)
Lemma origin_in_range (T : Z) :
  in_range c_Q (Z.shiftl (T + _EPOCH_DELTA) 32) = true
  <-> 0 <= T + _EPOCH_DELTA < 2 ^ 32.
Proof.
  unfold in_range. rewrite Z.shiftl_mul_pow2 by lia.
  change (lo c_Q) with 0. change (hi c_Q) with (2 ^ 32 * 2 ^ 32 - 1).
  rewrite andb_true_iff, !Z.leb_le. lia.
Qed.

(** [pack_request] always returns a packet. *)
Lemma pack_request_total (T : Z) (self : Client) :
  pack_request T self
  = (set_mode 3 (set_vn 3 self),
     inr (request_head ++ to_bytes_big 8 (Z.shiftl (T + _EPOCH_DELTA) 32)
          ++ repeat x00 16)).
Proof. rewrite pack_request_run, pack_packet. reflexivity. Qed.

(** The bytes of a request that was packed. *)
Lemma pack_request_bytes (T : Z) (self self' : Client) (data : bytes) :
  pack_request T self = (self', inr data) ->
  self' = set_mode 3 (set_vn 3 self)
  /\ data = request_head ++ to_bytes_big 8 (Z.shiftl (T + _EPOCH_DELTA) 32)
            ++ repeat x00 16.
Proof.
  rewrite pack_request_total. intro H. injection H as <- <-. auto.
Qed.

(** C3: whenever [pack_request] succeeds for its origin-timestamp
    parameter, it returns exactly 48 bytes, byte 0 is 0x1B and bytes 1
    to 11 are zero. *)
Theorem C3_request_layout (T : Z) (self self' : Client) (data : bytes) :
  pack_request T self = (self', inr data) ->
  List.length data = 48%nat
  /\ byte_at data 0 = Z.lor (Z.shiftl 3 3) 3
  /\ byte_at data 0 = 27
  /\ forall i, (1 <= i <= 11)%nat -> byte_at data i = 0.
Proof.
  intro H. apply pack_request_bytes in H. destruct H as (_ & ->).
  repeat apply conj.
  - rewrite !length_app, length_to_bytes_big. reflexivity.
  - reflexivity.
  - reflexivity.
  - intros i Hi.
    assert (Hcases : In i (seq 1 11)) by (apply in_seq; lia).
    cbn in Hcases.
    repeat (destruct Hcases as [<- | Hcases]; [reflexivity|]).
    contradiction.
Qed.

(** The default origin timestamp, 0, packs: the origin field holds
    the epoch delta, 0x83AA7E80 seconds. *)
Lemma C3_request_layout_witness :
  let data := request_head ++ [x83; xaa; x7e; x80] ++ repeat x00 20 in
  pack_request 0 default_client = (default_client, inr data)
  /\ List.length data = 48%nat
  /\ byte_at data 0 = Z.lor (Z.shiftl 3 3) 3
  /\ byte_at data 0 = 27
  /\ forall i, (1 <= i <= 11)%nat -> byte_at data i = 0.
Proof.
  split; [reflexivity|].
  apply (C3_request_layout 0 default_client default_client). reflexivity.
Defined.

Lemma origin_slice (V : Z) :
  slice (request_head ++ to_bytes_big 8 V ++ repeat x00 16) 24 32 = to_bytes_big 8 V.
Proof.
  unfold slice. change (32 - 24)%nat with 8%nat.
  change (skipn 24 (request_head ++ to_bytes_big 8 V ++ repeat x00 16))
    with (to_bytes_big 8 V ++ repeat x00 16).
  rewrite firstn_app, length_to_bytes_big, firstn_all2
    by (rewrite length_to_bytes_big; lia).
  cbn [Nat.sub firstn]. apply app_nil_r.
Qed.

(** C4: for every T >= 0 with T + 2208988800 < 2^32, the request
    packed with origin timestamp T decodes, through
    [unpack_response], to [origin_timestamp = T]. *)
Theorem C4_origin_round_trip (T : Z) (self : Client) :
  0 <= T -> T + 2208988800 < 2 ^ 32 ->
  exists self1 data self2,
    pack_request T self = (self1, inr data)
    /\ unpack_response data self1 = (self2, inr tt)
    /\ origin_timestamp self2 = T.
Proof.
  intros Hpos Hfit.
  assert (Hin : in_range c_Q (Z.shiftl (T + _EPOCH_DELTA) 32) = true).
  { apply origin_in_range. unfold _EPOCH_DELTA. lia. }
  set (V := Z.shiftl (T + _EPOCH_DELTA) 32) in *.
  set (data := request_head ++ to_bytes_big 8 V ++ repeat x00 16).
  assert (Hlen : List.length data = 48%nat).
  { unfold data. rewrite !length_app, length_to_bytes_big. reflexivity. }
  exists (set_mode 3 (set_vn 3 self)), data,
    (fst (unpack_response data (set_mode 3 (set_vn 3 self)))).
  split; [|split].
  - rewrite pack_request_total. reflexivity.
  - pose proof (unpack_response_returns (set_mode 3 (set_vn 3 self)) data Hlen) as Hret.
    destruct (unpack_response data (set_mode 3 (set_vn 3 self))) as [c r].
    cbn [fst snd] in *. now rewrite Hret.
  - destruct (unpacked_timestamps (set_mode 3 (set_vn 3 self)) data Hlen)
      as (_ & Ho & _).
    rewrite Ho. destruct (value_at data) as (_ & _ & _ & _ & V8 & _).
    rewrite V8, decode_Q. unfold data. rewrite origin_slice, from_to_bytes_big.
    unfold in_range in Hin. apply andb_prop in Hin. destruct Hin as [Hl Hh].
    apply Z.leb_le in Hl. apply Z.leb_le in Hh.
    change (lo c_Q) with 0 in Hl. change (hi c_Q) with (2 ^ 64 - 1) in Hh.
    change (256 ^ Z.of_nat 8) with (2 ^ 64).
    rewrite Z.mod_small by lia.
    unfold V. rewrite Z.shiftr_shiftl_l by lia.
    change (32 - 32) with 0. rewrite Z.shiftl_0_r. lia.
Qed.

Lemma C4_origin_round_trip_witness :
  exists self1 data self2,
    pack_request 1700000000 default_client = (self1, inr data)
    /\ unpack_response data self1 = (self2, inr tt)
    /\ origin_timestamp self2 = 1700000000.
Proof.
  apply (C4_origin_round_trip 1700000000 default_client); lia.
Defined.

(** The origin field of a request holds the NTP seconds reduced to
    32 bits, whatever the origin timestamp. *)
Lemma origin_seconds_wrap (T : Z) :
  whole_seconds (request_head ++ to_bytes_big 8 (Z.shiftl (T + _EPOCH_DELTA) 32)
                 ++ repeat x00 16) 24
  = (T + _EPOCH_DELTA) mod 2 ^ 32.
Proof.
  set (V := Z.shiftl (T + _EPOCH_DELTA) 32).
  set (data := request_head ++ to_bytes_big 8 V ++ repeat x00 16).
  assert (Hlen : List.length data = 48%nat).
  { unfold data. rewrite !length_app, length_to_bytes_big. reflexivity. }
  rewrite <- (timestamp_high_half data 24) by lia.
  unfold timestamp_field. change (24 + 8)%nat with 32%nat.
  unfold data. rewrite origin_slice, from_to_bytes_big.
  unfold V. rewrite Z.shiftl_mul_pow2, Z.shiftr_div_pow2 by lia.
  change (256 ^ Z.of_nat 8) with (2 ^ 32 * 2 ^ 32).
  rewrite Z.mul_mod_distr_r by lia.
  rewrite Z.div_mul by lia. reflexivity.
Qed.

(** C10 fails as stated: at the first origin timestamp past the
    32-bit range, T = 2085978496, [pack_request] does not fail; it
    returns 48 bytes, with an origin field of zero. *)
Lemma C10_overflow_packs_counterexample :
  2 ^ 32 <= 2085978496 + 2208988800
  /\ pack_request 2085978496 default_client
     = (default_client, inr (request_head ++ repeat x00 24))
  /\ List.length (request_head ++ repeat x00 24) = 48%nat
  /\ ~ (exists e, snd (pack_request 2085978496 default_client) = inl e).
Proof.
  split; [vm_compute; discriminate|].
  split; [vm_compute; reflexivity|].
  split; [reflexivity|].
  intros [e He]. vm_compute in He. discriminate.
Qed.

(** C10, amended: for every origin timestamp T with
    T + 2208988800 >= 2^32, [pack_request] does not fail: it returns a
    48-byte packet whose origin field holds the seconds
    (T + 2208988800) mod 2^32, not T + 2208988800, because the shifted
    value is stored with its low 64 bits only. *)
Theorem C10_overflow_wraps (T : Z) (self : Client) :
  2 ^ 32 <= T + 2208988800 ->
  exists data,
    snd (pack_request T self) = inr data
    /\ List.length data = 48%nat
    /\ whole_seconds data 24 = (T + 2208988800) mod 2 ^ 32
    /\ whole_seconds data 24 <> T + 2208988800.
Proof.
  intro Hbig. rewrite pack_request_total. cbn [snd]. eexists.
  split; [reflexivity|]. split.
  - rewrite !length_app, length_to_bytes_big. reflexivity.
  - rewrite origin_seconds_wrap. unfold _EPOCH_DELTA. split; [reflexivity|].
    pose proof (Z.mod_pos_bound (T + 2208988800) (2 ^ 32) ltac:(lia)). lia.
Qed.

Lemma C10_overflow_wraps_witness :
  exists data,
    snd (pack_request 2085978496 default_client) = inr data
    /\ List.length data = 48%nat
    /\ whole_seconds data 24 = (2085978496 + 2208988800) mod 2 ^ 32
    /\ whole_seconds data 24 <> 2085978496 + 2208988800.
Proof.
  apply (C10_overflow_wraps 2085978496 default_client). vm_compute. discriminate.
Defined.

End PackSpec.

(* ================================================================= *)
(** ** The socket of [query_time] *)

Module QuerySpec.

Import Struct Socket Ntp Wire StructFacts NtpFacts.

Local Open Scope run_scope.

(** [recv_matching] is the while loop: one read, then either the
    break or the loop again. *)
Lemma recv_matching_unfold (s : nat) (dest_addr : sockaddr) (w : World) :
  recv_matching s dest_addr w
  = (received <- recvfrom s 256;;
     let '(data, src_addr) := received in
     if sockaddr_eqb src_addr dest_addr then ret data
     else recv_matching s dest_addr) w.
Proof.
  unfold recv_matching, bind, get.
  destruct w as [d f q o fds n]. cbn [inbox].
  destruct q as [|[payload src] later]; cbn [List.tl].
  - reflexivity.
  - destruct later as [|next later];
      cbn [recv_loop bind recvfrom inbox set_inbox List.tl];
      unfold bind, recvfrom; cbn [inbox set_inbox];
      destruct (sockaddr_eqb src dest_addr); reflexivity.
Qed.

(** Reading never opens or closes a socket. *)
Lemma recv_loop_fds (s : nat) (dest_addr : sockaddr) (arriving : list datagram) :
  forall w,
    open_fds (fst (recv_loop s dest_addr arriving w)) = open_fds w
    /\ next_fd (fst (recv_loop s dest_addr arriving w)) = next_fd w.
Proof.
  induction arriving as [|d later IH]; intros [dn f q o fds n];
    cbn [recv_loop]; unfold bind, recvfrom; cbn [inbox];
    destruct q as [|[payload src] q']; cbn [fst set_inbox open_fds next_fd];
    try (split; reflexivity);
    destruct (sockaddr_eqb src dest_addr); cbn [fst ret raise open_fds next_fd];
    try (split; reflexivity).
  apply IH.
Qed.


(** The loop ends with the first datagram from the destination, or
    with the timeout when there is none. *)
Lemma recv_matching_outcome (s : nat) (dest_addr : sockaddr) (w : World) :
  snd (recv_matching s dest_addr w)
  = match find (fun d => sockaddr_eqb (snd d) dest_addr) (inbox w) with
    | Some (payload, _) => inr (firstn 256 payload)
    | None => inl (OSError ETIMEDOUT)
    end.
Proof.
  destruct w as [dn f q o fds n]. cbn [inbox].
  induction q as [|[payload src] q IH]; rewrite recv_matching_unfold;
    unfold bind, recvfrom; cbn [inbox set_inbox find snd].
  - reflexivity.
  - destruct (sockaddr_eqb src dest_addr); [reflexivity | exact IH].
Qed.

Lemma recv_matching_fds (s : nat) (dest_addr : sockaddr) (w : World) :
  open_fds (fst (recv_matching s dest_addr w)) = open_fds w
  /\ next_fd (fst (recv_matching s dest_addr w)) = next_fd w.
Proof. unfold recv_matching, bind, get. apply recv_loop_fds. Qed.

Section OneCall.

Variables (self : Client) (w : World).

(** The device before the call: descriptors are handed out in
    increasing order, so the next one is not in use. *)
Hypothesis Hfresh : ~ In (next_fd w) (open_fds w).

Let s : nat := next_fd w.
Let opened : World := set_fds (s :: open_fds w) (S s) w.
Let self1 : Client := set_mode 3 (set_vn 3 self).

(** Address resolution fails: the call ends before a socket exists. *)
Lemma query_time_resolution_failure (e : exn) :
  dns w (host self) (port self) = inl e ->
  query_time (self, w) = ((self, w), inl e).
Proof.
  intro Hdns. unfold query_time, bind, on_fst, on_snd, get, getaddrinfo.
  cbn [fst snd]. rewrite Hdns. reflexivity.
Qed.

Variables (info : addrinfo) (others : list addrinfo).
Hypothesis Hdns : dns w (host self) (port self) = inr (info :: others).

(** [sendto] raises: the exception leaves [query_time] with the
    socket still in the table of open descriptors. *)
Lemma query_time_send_failure (e : exn) :
  send_fault w = Some e ->
  query_time (self, w) = ((self1, opened), inl e)
  /\ is_open s opened.
Proof.
  intro Hsend. split; [|left; reflexivity].
  unfold query_time.
  unfold bind at 1. unfold on_fst at 1, get at 1. cbn [fst snd].
  unfold bind at 1. unfold on_snd at 1, getaddrinfo. cbn [fst snd]. rewrite Hdns.
  unfold bind at 1. unfold lift at 1. cbn [first_of].
  unfold bind at 1. unfold on_snd at 1, socket. cbn [fst snd].
  unfold bind at 1. unfold on_snd at 1, settimeout, ret. cbn [fst snd].
  unfold bind at 1. unfold on_fst at 1. cbn [fst snd].
  rewrite PackSpec.pack_request_run, PackSpec.pack_packet.
  unfold bind at 1. unfold on_snd at 1, sendto. cbn [fst snd send_fault set_fds].
  rewrite Hsend. reflexivity.
Qed.

Hypothesis Hsend : send_fault w = None.

Let request : bytes :=
  request_head ++ to_bytes_big 8 (Z.shiftl (0 + _EPOCH_DELTA) 32) ++ repeat x00 16.
Let sent : World := set_outbox (outbox w ++ [(request, last_of info)]) opened.

(** The call from the receive loop on. *)
Lemma query_time_after_send :
  query_time (self, w)
  = match recv_matching s (last_of info) sent with
    | (w3, inl e) => ((self1, w3), inl e)
    | (w3, inr data) =>
        let w4 := set_fds (List.remove Nat.eq_dec s (open_fds w3)) (next_fd w3) w3 in
        match unpack_response data self1 with
        | (self2, inl e) => ((self2, w4), inl e)
        | (self2, inr _) => ((self2, w4), inr (transmit_timestamp self2))
        end
    end.
Proof.
  unfold query_time.
  unfold bind at 1. unfold on_fst at 1, get at 1. cbn [fst snd].
  unfold bind at 1. unfold on_snd at 1, getaddrinfo. cbn [fst snd]. rewrite Hdns.
  unfold bind at 1. unfold lift at 1. cbn [first_of].
  unfold bind at 1. unfold on_snd at 1, socket. cbn [fst snd].
  unfold bind at 1. unfold on_snd at 1, settimeout, ret. cbn [fst snd].
  unfold bind at 1. unfold on_fst at 1. cbn [fst snd].
  rewrite PackSpec.pack_request_run, PackSpec.pack_packet.
  unfold bind at 1. unfold on_snd at 1, sendto. cbn [fst snd send_fault set_fds].
  rewrite Hsend.
  unfold bind at 1. unfold on_snd at 1. cbn [fst snd].
  change (recv_matching (next_fd w) (last_of info) _)
    with (recv_matching s (last_of info) sent).
  fold s.
  destruct (recv_matching s (last_of info) sent) as [w3 [e | data]];
    [reflexivity|].
  unfold bind at 1. unfold on_snd at 1, close, modify. cbn [fst snd].
  unfold bind at 1. unfold on_fst at 1. cbn [fst snd].
  change (set_mode 3 (set_vn 3 self)) with self1.
  destruct (unpack_response data self1) as [self2 [e | []]]; reflexivity.
Qed.

(** No datagram from the destination arrives: the timeout of
    [recvfrom] leaves [query_time] with the socket still open. *)
Lemma query_time_timeout :
  find (fun d => sockaddr_eqb (snd d) (last_of info)) (inbox w) = None ->
  snd (query_time (self, w)) = inl (OSError ETIMEDOUT)
  /\ is_open s (snd (fst (query_time (self, w)))).
Proof.
  intro Hnone. rewrite query_time_after_send.
  pose proof (recv_matching_outcome s (last_of info) sent) as Hout.
  destruct (recv_matching_fds s (last_of info) sent) as [Hfds _].
  change (inbox sent) with (inbox w) in Hout. rewrite Hnone in Hout.
  destruct (recv_matching s (last_of info) sent) as [w3 [e | data]];
    cbn [fst snd] in *; [|discriminate].
  injection Hout as ->. split; [reflexivity|]. unfold is_open. rewrite Hfds. left. reflexivity.
Qed.

(** A datagram from the destination arrives: the socket is closed
    before the response is parsed, so neither the normal return nor
    a parsing failure leaves it open. *)
Lemma query_time_after_receive (payload : bytes) (src : sockaddr) :
  find (fun d => sockaddr_eqb (snd d) (last_of info)) (inbox w) = Some (payload, src) ->
  open_fds (snd (fst (query_time (self, w)))) = open_fds w
  /\ socket_released w (snd (fst (query_time (self, w))))
  /\ snd (query_time (self, w))
     = match unpack_response (firstn 256 payload) self1 with
       | (_, inl e) => inl e
       | (self2, inr _) => inr (transmit_timestamp self2)
       end.
Proof.
  intro Hsome. rewrite query_time_after_send.
  pose proof (recv_matching_outcome s (last_of info) sent) as Hout.
  destruct (recv_matching_fds s (last_of info) sent) as [Hfds _].
  change (inbox sent) with (inbox w) in Hout. rewrite Hsome in Hout.
  remember (firstn 256 payload) as cut eqn:Hcut. clear Hcut.
  destruct (recv_matching s (last_of info) sent) as [w3 [e | data]];
    cbn [fst snd] in *; [discriminate|].
  injection Hout as ->.
  assert (Hclosed : List.remove Nat.eq_dec s (open_fds w3) = open_fds w).
  { rewrite Hfds. change (open_fds sent) with (s :: open_fds w).
    rewrite remove_cons. apply notin_remove. exact Hfresh. }
  unfold socket_released, is_open.
  destruct (unpack_response cut self1) as [self2 [e | []]];
    cbn [fst snd set_fds open_fds]; rewrite Hclosed; auto.
Qed.

End OneCall.

(** The server answers: the time is returned and no socket is left. *)
Example query_time_answered :
  let '((self', w'), outcome) :=
    query_time (default_client, world None [(sample_reply, server)]) in
  outcome = inr 1700000000 /\ open_fds w' = [].
Proof. vm_compute. split; reflexivity. Qed.

(** A datagram from another source is skipped. *)
Example query_time_skips_stranger :
  let '((self', w'), outcome) :=
    query_time (default_client,
                world None [(repeat x00 48, stranger); (sample_reply, server)]) in
  outcome = inr 1700000000 /\ open_fds w' = [] /\ inbox w' = [].
Proof. vm_compute. repeat split; reflexivity. Qed.

(** A reply of 47 bytes: the socket is closed, then parsing fails. *)
Example query_time_bad_reply :
  let '((self', w'), outcome) :=
    query_time (default_client, world None [(repeat x00 47, server)]) in
  outcome = inl (ValueError "buffer too small") /\ open_fds w' = [].
Proof. vm_compute. split; reflexivity. Qed.

(** C1 does not hold of the code: with a server that never answers,
    [query_time] ends in the timeout of [recvfrom] and the socket it
    opened (descriptor 0, on a device with no socket open before) is
    still open when the exception leaves the call; the same happens
    when [sendto] raises.  [s.close()] is only reached after the
    receive loop. *)
Theorem C1_socket_left_open_on_error :
  (let '((self', w'), outcome) := query_time (default_client, silent_world) in
   open_fds silent_world = []
   /\ outcome = inl (OSError ETIMEDOUT)
   /\ open_fds w' = [0%nat]
   /\ ~ socket_released silent_world w')
  /\
  (let unreachable := world (Some (OSError 113)) [] in
   let '((self', w'), outcome) := query_time (default_client, unreachable) in
   open_fds unreachable = []
   /\ outcome = inl (OSError 113)
   /\ open_fds w' = [0%nat]
   /\ ~ socket_released unreachable w').
Proof.
  split; vm_compute; repeat split; try reflexivity;
    intro Hreleased; apply Hreleased; left; reflexivity.
Qed.

End QuerySpec.


(* ================================================================= *)
(** ** Further properties of the packet codec *)

Module CodecExtra.

Import Struct Socket Ntp Wire StructFacts NtpFacts.

(** Every index of the unpacked tuple, as a slice of the buffer. *)
Lemma value_at_all (data : bytes) :
  unpack_fields packet_codes data
  = [ decode c_b (slice data 0 1); decode c_b (slice data 1 2);
      decode c_b (slice data 2 3); decode c_b (slice data 3 4);
      decode c_I (slice data 4 8); decode c_I (slice data 8 12);
      decode c_I (slice data 12 16);
      decode c_Q (slice data 16 24); decode c_Q (slice data 24 32);
      decode c_Q (slice data 32 40); decode c_Q (slice data 40 48) ].
Proof.
  unfold slice. cbn [packet_codes unpack_fields size].
  rewrite !skipn_skipn. cbn [Nat.add Nat.sub]. reflexivity.
Qed.

(** The client that [unpack_response] leaves, field by field, for a
    buffer of 48 bytes. *)
Lemma unpack_response_other_fields (self : Client) (data : bytes) :
  List.length data = 48%nat ->
  let values := unpack_fields packet_codes data in
  let self' := fst (unpack_response data self) in
  poll self' = nth 2 values 0
  /\ precision self' = nth 3 values 0
  /\ root_delay self' = nth 4 values 0
  /\ root_dispersion self' = nth 5 values 0
  /\ host self' = host self /\ port self' = port self
  /\ timeout self' = timeout self.
Proof.
  intros Hlen values self'. subst self' values.
  run_unpack Hlen; repeat split; reflexivity.
Qed.

Lemma decode_signed_byte_range (b : byte) : -128 <= decode c_b [b] <= 127.
Proof.
  rewrite decode_signed_byte. pose proof (Z_of_byte_range b).
  destruct (Z.ltb_spec (Z_of_byte b) 128); lia.
Qed.

(** X1: [pack_request] never fails.  For every integer origin
    timestamp T it sets [vn] and [mode] to 3 and returns 48 bytes whose
    origin field holds the seconds (T + 2208988800) mod 2^32: the
    value wraps, and it is T + 2208988800 itself exactly for the
    origin timestamps from -2208988800 to 2085978495. *)
Theorem pack_request_wraps (T : Z) (self : Client) :
  exists data,
    pack_request T self = (set_mode 3 (set_vn 3 self), inr data)
    /\ List.length data = 48%nat
    /\ whole_seconds data 24 = (T + 2208988800) mod 2 ^ 32
    /\ (whole_seconds data 24 = T + 2208988800
        <-> -2208988800 <= T <= 2085978495).
Proof.
  rewrite PackSpec.pack_request_total. eexists.
  split; [reflexivity|]. split.
  - rewrite !length_app, length_to_bytes_big. reflexivity.
  - rewrite PackSpec.origin_seconds_wrap. unfold _EPOCH_DELTA.
    split; [reflexivity|].
    pose proof (Z.mod_pos_bound (T + 2208988800) (2 ^ 32) ltac:(lia)) as Hm.
    split.
    + intro H. lia.
    + intro H. apply Z.mod_small. lia.
Qed.

Lemma pack_request_wraps_witness :
  exists data,
    pack_request (-2208988801) default_client
    = (set_mode 3 (set_vn 3 default_client), inr data)
    /\ List.length data = 48%nat
    /\ whole_seconds data 24 = (-2208988801 + 2208988800) mod 2 ^ 32
    /\ (whole_seconds data 24 = -2208988801 + 2208988800
        <-> -2208988800 <= -2208988801 <= 2085978495).
Proof.
  exact (pack_request_wraps (-2208988801) default_client).
Defined.

(** An origin timestamp one second before the NTP epoch is sent as
    the last second of the era. *)
Example origin_before_epoch :
  snd (pack_request (-2208988801) default_client)
  = inr (request_head ++ [xff; xff; xff; xff] ++ repeat x00 20).
Proof. vm_compute. reflexivity. Qed.

Lemma to_bytes_big_times_256 (n : nat) (v : Z) :
  to_bytes_big (S n) (v * 256) = to_bytes_big n v ++ [x00].
Proof.
  cbn [to_bytes_big]. rewrite Z.div_mul by lia.
  unfold byte_of_Z. rewrite Z.mod_mul by lia. reflexivity.
Qed.

(** The origin field of a request: the seconds in the high half, a
    zero fraction in the low half. *)
Lemma to_bytes_big_shifted (v : Z) :
  to_bytes_big 8 (Z.shiftl v 32) = to_bytes_big 4 v ++ repeat x00 4.
Proof.
  rewrite Z.shiftl_mul_pow2 by lia.
  replace (v * 2 ^ 32) with (v * 256 * 256 * 256 * 256) by lia.
  rewrite !to_bytes_big_times_256, <- !app_assoc. reflexivity.
Qed.

(** X2: a request that was packed consists of the byte 0x1B, 23 zero
    bytes, the four low bytes of T + 2208988800 (most significant
    first) and 20 zero bytes: apart from byte 0 and the whole seconds
    of the origin timestamp at offsets 24..27 every byte is zero, the
    fraction of the origin timestamp included.  For an origin timestamp
    from -2208988800 to 2085978495 the whole seconds are
    T + 2208988800. *)
Theorem request_contents (T : Z) (self self' : Client) (data : bytes) :
  pack_request T self = (self', inr data) ->
  data = request_head ++ to_bytes_big 4 (T + 2208988800) ++ repeat x00 20
  /\ (-2208988800 <= T <= 2085978495 -> whole_seconds data 24 = T + 2208988800)
  /\ forall i, (1 <= i < 48)%nat -> (i < 24 \/ 28 <= i)%nat -> byte_at data i = 0.
Proof.
  intro H. apply PackSpec.pack_request_bytes in H. destruct H as (_ & Hdata).
  unfold _EPOCH_DELTA in *. rewrite to_bytes_big_shifted, <- app_assoc in Hdata.
  change (repeat x00 4 ++ repeat x00 16) with (repeat x00 20) in Hdata.
  split; [exact Hdata|]. subst data. split.
  - intro Hfit. unfold whole_seconds, slice. change (24 + 4 - 24)%nat with 4%nat.
    change (skipn 24 (request_head ++ to_bytes_big 4 (T + 2208988800) ++ repeat x00 20))
      with (to_bytes_big 4 (T + 2208988800) ++ repeat x00 20).
    rewrite firstn_app, length_to_bytes_big, firstn_all2
      by (rewrite length_to_bytes_big; lia).
    cbn [Nat.sub firstn]. rewrite app_nil_r, from_to_bytes_big.
    change (256 ^ Z.of_nat 4) with (2 ^ 32). apply Z.mod_small. lia.
  - intros i Hi Hzone. unfold byte_at.
    destruct (Nat.lt_ge_cases i 24) as [Hlow | Hhigh].
    + assert (Hcases : In i (seq 1 23)) by (apply in_seq; lia).
      cbn in Hcases.
      repeat (destruct Hcases as [<- | Hcases]; [reflexivity|]).
      contradiction.
    + change (request_head ++ to_bytes_big 4 (T + 2208988800) ++ repeat x00 20)
        with ((request_head ++ to_bytes_big 4 (T + 2208988800)) ++ repeat x00 20)
        || rewrite app_assoc.
      rewrite app_nth2; rewrite length_app, length_to_bytes_big;
        change (List.length request_head) with 24%nat; [|lia].
      rewrite nth_repeat. reflexivity.
Qed.

Lemma request_contents_witness :
  let data := request_head ++ [x83; xaa; x7e; x80] ++ repeat x00 20 in
  data = request_head ++ to_bytes_big 4 (0 + 2208988800) ++ repeat x00 20
  /\ whole_seconds data 24 = 0 + 2208988800
  /\ forall i, (1 <= i < 48)%nat -> (i < 24 \/ 28 <= i)%nat -> byte_at data i = 0.
Proof.
  destruct (request_contents 0 default_client default_client
              (request_head ++ [x83; xaa; x7e; x80] ++ repeat x00 20) eq_refl)
    as (Hdata & Hsecs & Hzero).
  split; [exact Hdata|]. split; [apply Hsecs; lia | exact Hzero].
Defined.


(** X3: for every 48-byte response, [poll] and [precision] are bytes 2
    and 3 read as signed values (-128..127: the wire byte below 128,
    the wire byte minus 256 from 128 on), and [root_delay] and
    [root_dispersion] are bytes 4..7 and 8..11 read as unsigned 32-bit
    big-endian numbers. *)
Theorem small_fields_decoded (self : Client) (data : bytes) :
  List.length data = 48%nat ->
  let self' := fst (unpack_response data self) in
  let signed_byte (u : Z) := if u <? 128 then u else u - 256 in
  poll self' = signed_byte (byte_at data 2)
  /\ precision self' = signed_byte (byte_at data 3)
  /\ root_delay self' = from_bytes_big (slice data 4 8)
  /\ root_dispersion self' = from_bytes_big (slice data 8 12)
  /\ -128 <= poll self' <= 127 /\ -128 <= precision self' <= 127
  /\ 0 <= root_delay self' < 2 ^ 32 /\ 0 <= root_dispersion self' < 2 ^ 32.
Proof.
  intros Hlen self' signed_byte.
  destruct (unpack_response_other_fields self data Hlen)
    as (Hp & Hq & Hd & Hs & _).
  fold self' in Hp, Hq, Hd, Hs.
  rewrite value_at_all in Hp, Hq, Hd, Hs. cbn [nth] in Hp, Hq, Hd, Hs.
  rewrite (slice_one data 2), decode_signed_byte in Hp by lia.
  rewrite (slice_one data 3), decode_signed_byte in Hq by lia.
  rewrite decode_I in Hd, Hs.
  fold (byte_at data 2) in Hp. fold (byte_at data 3) in Hq.
  pose proof (Z_of_byte_range (nth 2 data x00)) as R2. fold (byte_at data 2) in R2.
  pose proof (Z_of_byte_range (nth 3 data x00)) as R3. fold (byte_at data 3) in R3.
  pose proof (from_bytes_big_range (slice data 4 8)) as R4.
  pose proof (from_bytes_big_range (slice data 8 12)) as R8.
  rewrite length_slice in R4, R8 by lia.
  change (256 ^ Z.of_nat (8 - 4)) with (2 ^ 32) in R4.
  change (256 ^ Z.of_nat (12 - 8)) with (2 ^ 32) in R8.
  subst signed_byte. cbv beta.
  rewrite Hp, Hq, Hd, Hs.
  destruct (Z.ltb_spec (byte_at data 2) 128), (Z.ltb_spec (byte_at data 3) 128);
    repeat split; lia.
Qed.

Lemma small_fields_decoded_witness :
  let self' :=
    fst (unpack_response ([x24; x02; x06; xe9; x00; x00; x01; x00; x00; x01; x00; x02]
                          ++ repeat x00 36) default_client) in
  poll self' = 6 /\ precision self' = -23
  /\ root_delay self' = 256 /\ root_dispersion self' = 65538.
Proof.
  destruct (small_fields_decoded default_client
              ([x24; x02; x06; xe9; x00; x00; x01; x00; x00; x01; x00; x02]
               ++ repeat x00 36) eq_refl)
    as (Hp & Hq & Hd & Hs & _).
  split; [rewrite Hp; reflexivity|].
  split; [rewrite Hq; reflexivity|].
  split; [rewrite Hd | rewrite Hs]; reflexivity.
Defined.

(** X4: for every 48-byte response the decoded header fields are
    within their bit widths (li 0..3, vn 0..7, mode 0..7) and each of
    the four timestamps lies between -2208988800 and 2085978495: no
    response decodes to a time after the end of the NTP era, and a
    timestamp field of zero decodes to -2208988800. *)
Theorem decoded_ranges (self : Client) (data : bytes) :
  List.length data = 48%nat ->
  let self' := fst (unpack_response data self) in
  0 <= li self' <= 3 /\ 0 <= vn self' <= 7 /\ 0 <= mode self' <= 7
  /\ -2208988800 <= reference_timestamp self' <= 2085978495
  /\ -2208988800 <= origin_timestamp self' <= 2085978495
  /\ -2208988800 <= receive_timestamp self' <= 2085978495
  /\ -2208988800 <= transmit_timestamp self' <= 2085978495
  /\ (timestamp_field data 40 = 0 -> transmit_timestamp self' = -2208988800).
Proof.
  intros Hlen self'.
  destruct (unpacked_header self data Hlen) as (Hli & Hvn & Hmode).
  fold self' in Hli, Hvn, Hmode.
  assert (Hmask : forall x k, 0 <= k -> 0 <= Z.land x (Z.ones k) <= 2 ^ k - 1).
  { intros x k Hk. rewrite Z.land_ones by lia.
    pose proof (Z.mod_pos_bound x (2 ^ k) ltac:(apply Z.pow_pos_nonneg; lia)). lia. }
  pose proof (Hmask (Z.shiftr (nth 0 (unpack_fields packet_codes data) 0) 6) 2 ltac:(lia)) as Rli.
  pose proof (Hmask (Z.shiftr (nth 0 (unpack_fields packet_codes data) 0) 3) 3 ltac:(lia)) as Rvn.
  pose proof (Hmask (nth 0 (unpack_fields packet_codes data) 0) 3 ltac:(lia)) as Rmode.
  change (Z.ones 2) with 3 in Rli. change (Z.ones 3) with 7 in Rvn, Rmode.
  destruct (unpacked_timestamps self data Hlen) as (Hr & Ho & Hx & Ht).
  fold self' in Hr, Ho, Hx, Ht.
  rewrite value_at_all in Hr, Ho, Hx, Ht. cbn [nth] in Hr, Ho, Hx, Ht.
  rewrite decode_Q in Hr, Ho, Hx, Ht. unfold _EPOCH_DELTA in *.
  change (from_bytes_big (slice data 16 24)) with (timestamp_field data 16) in Hr.
  change (from_bytes_big (slice data 24 32)) with (timestamp_field data 24) in Ho.
  change (from_bytes_big (slice data 32 40)) with (timestamp_field data 32) in Hx.
  change (from_bytes_big (slice data 40 48)) with (timestamp_field data 40) in Ht.
  pose proof (timestamp_high_half data 16 ltac:(lia)) as Hr'.
  pose proof (timestamp_high_half data 24 ltac:(lia)) as Ho'.
  pose proof (timestamp_high_half data 32 ltac:(lia)) as Hx'.
  pose proof (timestamp_high_half data 40 ltac:(lia)) as Ht'.
  assert (Hws : forall off, (off + 4 <= 48)%nat -> 0 <= whole_seconds data off < 2 ^ 32).
  { intros off Hoff. unfold whole_seconds.
    pose proof (from_bytes_big_range (slice data off (off + 4))) as R.
    rewrite length_slice in R by lia.
    replace (off + 4 - off)%nat with 4%nat in R by lia. exact R. }
  pose proof (Hws 16%nat ltac:(lia)). pose proof (Hws 24%nat ltac:(lia)).
  pose proof (Hws 32%nat ltac:(lia)). pose proof (Hws 40%nat ltac:(lia)).
  repeat apply conj; try lia.
  intro Hzero. rewrite Ht, Hzero. reflexivity.
Qed.


Lemma decoded_ranges_witness :
  let self' := fst (unpack_response (repeat x00 48) default_client) in
  0 <= li self' <= 3 /\ 0 <= vn self' <= 7 /\ 0 <= mode self' <= 7
  /\ -2208988800 <= reference_timestamp self' <= 2085978495
  /\ -2208988800 <= origin_timestamp self' <= 2085978495
  /\ -2208988800 <= receive_timestamp self' <= 2085978495
  /\ -2208988800 <= transmit_timestamp self' <= 2085978495
  /\ (timestamp_field (repeat x00 48) 40 = 0 -> transmit_timestamp self' = -2208988800).
Proof.
  exact (decoded_ranges default_client (repeat x00 48) eq_refl).
Defined.

(** The thirteen decoded attributes after a successful
    [unpack_response], as functions of the unpacked values alone. *)
Lemma decoded_attributes_of_values (self : Client) (data : bytes) :
  List.length data = 48%nat ->
  let v (i : nat) := nth i (unpack_fields packet_codes data) 0 in
  let fields :=
    (Z.land (Z.shiftr (v 6%nat) 24) 255, Z.land (Z.shiftr (v 6%nat) 16) 255,
     Z.land (Z.shiftr (v 6%nat) 8) 255, Z.land (v 6%nat) 255) in
  decoded_attributes (fst (unpack_response data self))
  = (Z.land (Z.shiftr (v 0%nat) 6) 3, Z.land (Z.shiftr (v 0%nat) 3) 7,
     Z.land (v 0%nat) 7, v 1%nat, v 2%nat, v 3%nat, v 4%nat, v 5%nat,
     (if (0 <=? v 1%nat) && (v 1%nat <=? 1) then
        RidStr (Str.rstrip (Str.format_cccc fields) Str.NUL)
      else if (2 <=? v 1%nat) && (v 1%nat <=? 15) then
        RidStr (Str.format_dotted fields)
      else RidStr "INVALID"),
     Z.shiftr (v 7%nat) 32 - _EPOCH_DELTA, Z.shiftr (v 8%nat) 32 - _EPOCH_DELTA,
     Z.shiftr (v 9%nat) 32 - _EPOCH_DELTA, Z.shiftr (v 10%nat) 32 - _EPOCH_DELTA).
Proof.
  intros Hlen v fields. subst v fields. cbv beta.
  run_unpack Hlen; reflexivity.
Qed.

(** X5: a successful [unpack_response] overwrites all thirteen decoded
    attributes from the packet alone: whatever the client held before
    (an earlier response, or the initial values) the attributes after
    the call are the same; the configuration (host, port, timeout) is
    left as it was. *)
Theorem unpack_overwrites_state (self other : Client) (data : bytes) :
  List.length data = 48%nat ->
  decoded_attributes (fst (unpack_response data self))
  = decoded_attributes (fst (unpack_response data other))
  /\ host (fst (unpack_response data self)) = host self
  /\ port (fst (unpack_response data self)) = port self
  /\ timeout (fst (unpack_response data self)) = timeout self.
Proof.
  intro Hlen. split.
  - rewrite (decoded_attributes_of_values self data Hlen),
      (decoded_attributes_of_values other data Hlen). reflexivity.
  - destruct (unpack_response_other_fields self data Hlen)
      as (_ & _ & _ & _ & Hh & Hp & Ht). auto.
Qed.

Lemma unpack_overwrites_state_witness :
  let stale := fst (unpack_response (reply xdc x10 (x4c, x4f, x43, x4c) 5) default_client) in
  decoded_attributes (fst (unpack_response sample_reply stale))
  = decoded_attributes (fst (unpack_response sample_reply default_client))
  /\ host (fst (unpack_response sample_reply stale)) = host stale
  /\ port (fst (unpack_response sample_reply stale)) = port stale
  /\ timeout (fst (unpack_response sample_reply stale)) = timeout stale.
Proof.
  exact (unpack_overwrites_state
           (fst (unpack_response (reply xdc x10 (x4c, x4f, x43, x4c) 5) default_client))
           default_client sample_reply eq_refl).
Defined.


Lemma length_string_append (s t : string) :
  String.length (s ++ t) = (String.length s + String.length t)%nat.
Proof. induction s as [|a s IH]; cbn; [reflexivity | now rewrite IH]. Qed.

Lemma length_padding (ch : ascii) (k : nat) : String.length (Terms.padding ch k) = k.
Proof. induction k as [|k IH]; cbn; [reflexivity | now rewrite IH]. Qed.

(** [rstrip] removes the trailing run of [ch], all of it and nothing
    else. *)
Lemma rstrip_spec (s : string) (ch : ascii) :
  (exists k, s = (Str.rstrip s ch ++ Terms.padding ch k)%string)
  /\ ~ Terms.ends_with (Str.rstrip s ch) ch.
Proof.
  induction s as [|a r [[k Hk] Hend]]; cbn [Str.rstrip].
  - split; [exists 0%nat; reflexivity|]. intros [[|b front] H]; discriminate.
  - destruct (Str.rstrip r ch) as [|b t] eqn:E.
    + destruct (Ascii.eqb_spec a ch) as [-> | Hne].
      * split; [exists (S k); cbn in *; now rewrite <- Hk|].
        intros [[|b front] H]; discriminate.
      * split; [exists k; cbn in *; now rewrite <- Hk|].
        intros [[|b [|c front]] H]; cbn in H; try discriminate.
        injection H as ->. now apply Hne.
    + split; [exists k; cbn in *; now rewrite <- Hk|].
      intros [[|c front] H]; cbn in H; [discriminate|].
      injection H as -> H. apply Hend. exists front. exact H.
Qed.

(** X6: for every 48-byte response whose stratum decodes to 0 or 1,
    [reference_id] is a string of at most four characters that does
    not end in a NUL: it is the four reference-id bytes as characters
    with the trailing NULs, and only those, removed (NULs in front of
    another character stay). *)
Theorem reference_tag_shape (self : Client) (data : bytes) :
  List.length data = 48%nat ->
  let self' := fst (unpack_response data self) in
  let octets := (byte_at data 12, byte_at data 13, byte_at data 14, byte_at data 15) in
  0 <= stratum self' <= 1 ->
  exists tag k,
    reference_id self' = RidStr tag
    /\ Str.format_cccc octets = (tag ++ Terms.padding Str.NUL k)%string
    /\ (String.length tag + k = 4)%nat
    /\ ~ Terms.ends_with tag Str.NUL.
Proof.
  intros Hlen self' octets Hst.
  pose proof (unpacked_reference_id self data Hlen) as Hrid.
  pose proof (unpacked_stratum self data Hlen) as Hs.
  cbv zeta in Hrid. fold self' in Hrid, Hs. rewrite <- Hs in Hrid.
  rewrite value_at_all in Hrid. cbn [nth] in Hrid.
  rewrite decode_I, (UnpackSpec.refid_slice data Hlen) in Hrid.
  destruct (UnpackSpec.refid_octets (nth 12 data x00) (nth 13 data x00)
              (nth 14 data x00) (nth 15 data x00)) as (Ea & Eb & Ec & Ed).
  rewrite Ea, Eb, Ec, Ed in Hrid.
  destruct (Z.leb_spec 0 (stratum self')), (Z.leb_spec (stratum self') 1);
    cbn [andb] in Hrid; try lia.
  fold (byte_at data 12) (byte_at data 13) (byte_at data 14) (byte_at data 15) in Hrid.
  fold octets in Hrid.
  destruct (rstrip_spec (Str.format_cccc octets) Str.NUL) as [[k Hk] Hend].
  exists (Str.rstrip (Str.format_cccc octets) Str.NUL), k.
  repeat apply conj; try assumption.
  apply (f_equal String.length) in Hk.
  rewrite length_string_append, length_padding in Hk. rewrite <- Hk. reflexivity.
Qed.

Lemma reference_tag_shape_witness :
  exists tag k,
    reference_id (fst (unpack_response (reply x1c x01 (x47, x00, x53, x00) 0) default_client))
    = RidStr tag
    /\ Str.format_cccc (71, 0, 83, 0) = (tag ++ Terms.padding Str.NUL k)%string
    /\ (String.length tag + k = 4)%nat
    /\ ~ Terms.ends_with tag Str.NUL.
Proof.
  apply (reference_tag_shape default_client (reply x1c x01 (x47, x00, x53, x00) 0) eq_refl).
  vm_compute. split; discriminate.
Defined.

(** An interior NUL is kept: the bytes 'G', NUL, 'S', NUL give the
    three characters 'G', NUL, 'S'. *)
Example reference_tag_interior_nul :
  reference_id (fst (unpack_response (reply x1c x01 (x47, x00, x53, x00) 0) default_client))
  = RidStr (String "G" (String Str.NUL (String "S" EmptyString))).
Proof. reflexivity. Qed.


Lemma list_of_length_8 {A} (l : list A) :
  List.length l = 8%nat ->
  exists a b c d e f g h, l = [a; b; c; d; e; f; g; h].
Proof.
  intro H.
  do 8 (destruct l as [|? l]; [discriminate|]).
  destruct l; [|discriminate]. repeat eexists.
Qed.

(** The values [unpack] reads from a packed request. *)
Lemma own_request_values (field : bytes) :
  List.length field = 8%nat ->
  unpack_fields packet_codes (request_head ++ field ++ repeat x00 16)
  = [27; 0; 0; 0; 0; 0; 0; 0; from_bytes_big field; 0; 0].
Proof.
  intro H. destruct (list_of_length_8 field H) as (a & b & c & d & e & f & g & h & ->).
  reflexivity.
Qed.

(** X7: when a client parses the request it has just packed (an echo
    of the request), for every origin timestamp T from -2208988800 to
    2085978495 (those whose NTP seconds fit 32 bits): the header
    decodes to li 0, vn 3, mode 3, the stratum and the other small
    fields to 0, [reference_id] to the empty string,
    [origin_timestamp] to T and the other three timestamps to
    -2208988800. *)
Theorem own_request_decoded (T : Z) (self self1 : Client) (data : bytes) :
  -2208988800 <= T <= 2085978495 ->
  pack_request T self = (self1, inr data) ->
  snd (unpack_response data self1) = inr tt
  /\ decoded_attributes (fst (unpack_response data self1))
     = (0, 3, 3, 0, 0, 0, 0, 0, RidStr "",
        -2208988800, T, -2208988800, -2208988800).
Proof.
  intros Hfit H. apply PackSpec.pack_request_bytes in H. destruct H as (_ & ->).
  unfold _EPOCH_DELTA in *.
  set (V := Z.shiftl (T + 2208988800) 32).
  assert (Hlen : List.length (request_head ++ to_bytes_big 8 V ++ repeat x00 16) = 48%nat).
  { rewrite !length_app, length_to_bytes_big. reflexivity. }
  split; [apply (unpack_response_returns _ _ Hlen)|].
  rewrite (decoded_attributes_of_values _ _ Hlen). cbv zeta.
  rewrite (own_request_values _ (length_to_bytes_big 8 V)), from_to_bytes_big.
  assert (HV : V mod 256 ^ Z.of_nat 8 = V).
  { apply Z.mod_small. unfold V. rewrite Z.shiftl_mul_pow2 by lia.
    change (256 ^ Z.of_nat 8) with (4294967296 * 4294967296).
    change (2 ^ 32) with 4294967296. lia. }
  rewrite HV. cbn [nth].
  assert (HT : Z.shiftr V 32 - _EPOCH_DELTA = T).
  { unfold V, _EPOCH_DELTA. rewrite Z.shiftr_shiftl_l by lia.
    change (32 - 32) with 0. rewrite Z.shiftl_0_r. lia. }
  rewrite HT. reflexivity.
Qed.

Lemma own_request_decoded_witness :
  let data := request_head ++ [x83; xaa; x7e; x80] ++ repeat x00 20 in
  snd (unpack_response data default_client) = inr tt
  /\ decoded_attributes (fst (unpack_response data default_client))
     = (0, 3, 3, 0, 0, 0, 0, 0, RidStr "",
        -2208988800, 0, -2208988800, -2208988800).
Proof.
  apply (own_request_decoded 0 default_client); [lia | reflexivity].
Defined.

End CodecExtra.


(* ================================================================= *)
(** ** Further properties of [query_time] *)

Module QueryExtra.

Import Struct Socket Ntp Wire StructFacts NtpFacts QuerySpec.

(** The loop drops the datagrams from other sources that come before
    the first one from the destination, and leaves the later ones. *)
Lemma recv_matching_found (s : nat) (dest_addr : sockaddr)
      (strangers : list datagram) (payload : bytes) (src : sockaddr)
      (rest : list datagram) :
  (forall d, In d strangers -> sockaddr_eqb (snd d) dest_addr = false) ->
  sockaddr_eqb src dest_addr = true ->
  forall w, inbox w = strangers ++ (payload, src) :: rest ->
  recv_matching s dest_addr w = (set_inbox rest w, inr (firstn 256 payload)).
Proof.
  intros Hstr Hsrc.
  induction strangers as [|[p a] strangers IH]; intros [dn f q o fds n] Hq;
    cbn [inbox] in Hq; subst q; rewrite recv_matching_unfold;
    unfold bind, recvfrom;
    cbn [inbox app set_inbox dns send_fault outbox open_fds next_fd].
  - rewrite Hsrc. reflexivity.
  - pose proof (Hstr (p, a) (or_introl eq_refl)) as Hpa. cbn [snd] in Hpa.
    rewrite Hpa.
    rewrite IH.
    + reflexivity.
    + intros d Hd. apply Hstr. right. exact Hd.
    + reflexivity.
Qed.

(** With no datagram from the destination the loop reads them all and
    then times out. *)
Lemma recv_matching_drained (s : nat) (dest_addr : sockaddr) :
  forall w,
    (forall d, In d (inbox w) -> sockaddr_eqb (snd d) dest_addr = false) ->
    recv_matching s dest_addr w = (set_inbox [] w, inl (OSError ETIMEDOUT)).
Proof.
  intros [dn f q o fds n]. cbn [inbox].
  induction q as [|[p a] q IH]; intro Hstr; rewrite recv_matching_unfold;
    unfold bind, recvfrom;
    cbn [inbox set_inbox dns send_fault outbox open_fds next_fd].
  - reflexivity.
  - pose proof (Hstr (p, a) (or_introl eq_refl)) as Hpa. cbn [snd] in Hpa.
    rewrite Hpa.
    apply IH. intros d Hd. apply Hstr. right. exact Hd.
Qed.


Section Exchange.

Variables (self : Client) (w : World) (info : addrinfo) (others : list addrinfo).

Hypothesis Hfresh : ~ In (next_fd w) (open_fds w).
Hypothesis Hdns : dns w (host self) (port self) = inr (info :: others).
Hypothesis Hsend : send_fault w = None.

(** X8: resolution and sending work, and after any number of datagrams
    from other sources a 48-byte datagram from the resolved address
    arrives.  Then [query_time] returns the whole seconds of its
    transmit timestamp minus 2208988800; the client holds the decoding
    of that datagram; exactly one datagram, the 48-byte request for
    origin 0, was sent to the resolved address; the datagrams before
    the reply are consumed and the later ones are left unread; the
    table of open sockets is as before the call. *)
Theorem query_time_answer (strangers : list datagram) (payload : bytes)
        (src : sockaddr) (rest : list datagram) :
  inbox w = strangers ++ (payload, src) :: rest ->
  (forall d, In d strangers -> sockaddr_eqb (snd d) (last_of info) = false) ->
  sockaddr_eqb src (last_of info) = true ->
  List.length payload = 48%nat ->
  let '((self', w'), outcome) := query_time (self, w) in
  outcome = inr (whole_seconds payload 40 - 2208988800)
  /\ self' = fst (unpack_response payload (set_mode 3 (set_vn 3 self)))
  /\ outbox w' = outbox w
                 ++ [(request_head ++ [x83; xaa; x7e; x80] ++ repeat x00 20, last_of info)]
  /\ inbox w' = rest
  /\ open_fds w' = open_fds w.
Proof.
  intros Hin Hstr Hsrc Hlen.
  rewrite (query_time_after_send self w info others Hdns Hsend).
  rewrite (recv_matching_found _ _ strangers payload src rest Hstr Hsrc)
    by exact Hin.
  rewrite firstn_all2 by lia. cbv zeta.
  pose proof (unpack_response_returns (set_mode 3 (set_vn 3 self)) payload Hlen) as Hret.
  destruct (unpacked_timestamps (set_mode 3 (set_vn 3 self)) payload Hlen)
    as (_ & _ & _ & Htx).
  rewrite CodecExtra.value_at_all in Htx. cbn [nth] in Htx.
  rewrite decode_Q in Htx.
  change (from_bytes_big (slice payload 40 48)) with (timestamp_field payload 40) in Htx.
  rewrite (timestamp_high_half payload 40) in Htx by lia.
  destruct (unpack_response payload (set_mode 3 (set_vn 3 self))) as [self2 [e | []]];
    cbn [fst snd] in *; [discriminate|].
  repeat apply conj; try reflexivity.
  - rewrite Htx. reflexivity.
  - cbn [set_fds set_inbox set_outbox open_fds next_fd outbox inbox].
    rewrite remove_cons. apply notin_remove. exact Hfresh.
Qed.

(** X9: as before, but the datagram from the resolved address is
    shorter than 48 bytes.  Then [query_time] raises [ValueError],
    which is not an [OSError] (the caller reports it as bad data, not
    as a timeout); the decoded attributes of the client are untouched
    (only [vn] and [mode] were set to 3 by packing); the socket is
    closed. *)
Theorem query_time_short_reply (strangers : list datagram) (payload : bytes)
        (src : sockaddr) (rest : list datagram) :
  inbox w = strangers ++ (payload, src) :: rest ->
  (forall d, In d strangers -> sockaddr_eqb (snd d) (last_of info) = false) ->
  sockaddr_eqb src (last_of info) = true ->
  (List.length payload < 48)%nat ->
  let '((self', w'), outcome) := query_time (self, w) in
  outcome = inl (ValueError "buffer too small")
  /\ is_OSError (ValueError "buffer too small") = false
  /\ self' = set_mode 3 (set_vn 3 self)
  /\ inbox w' = rest
  /\ open_fds w' = open_fds w.
Proof.
  intros Hin Hstr Hsrc Hlen.
  rewrite (query_time_after_send self w info others Hdns Hsend).
  rewrite (recv_matching_found _ _ strangers payload src rest Hstr Hsrc)
    by exact Hin.
  assert (Hcut : (List.length (firstn 256 payload) < 48)%nat)
    by (rewrite length_firstn; lia).
  cbv zeta. rewrite (UnpackSpec.unpack_response_short _ _ Hcut).
  repeat apply conj; try reflexivity.
  cbn [set_fds set_inbox set_outbox open_fds next_fd outbox inbox].
  rewrite remove_cons. apply notin_remove. exact Hfresh.
Qed.

(** X25: as before, but the datagram from the resolved address is
    longer than 48 bytes (a reply with extension fields or an
    authenticator, or any other over-long datagram).  Then
    [query_time] does not fail: it decodes the first 48 bytes and
    returns the whole seconds of the transmit timestamp found there
    minus 2208988800; the socket is closed. *)
Theorem query_time_long_reply (strangers : list datagram) (payload : bytes)
        (src : sockaddr) (rest : list datagram) :
  inbox w = strangers ++ (payload, src) :: rest ->
  (forall d, In d strangers -> sockaddr_eqb (snd d) (last_of info) = false) ->
  sockaddr_eqb src (last_of info) = true ->
  (48 < List.length payload)%nat ->
  let '((self', w'), outcome) := query_time (self, w) in
  outcome = inr (whole_seconds payload 40 - 2208988800)
  /\ self' = fst (unpack_response (firstn 48 payload) (set_mode 3 (set_vn 3 self)))
  /\ inbox w' = rest
  /\ open_fds w' = open_fds w.
Proof.
  intros Hin Hstr Hsrc Hlen.
  rewrite (query_time_after_send self w info others Hdns Hsend).
  rewrite (recv_matching_found _ _ strangers payload src rest Hstr Hsrc)
    by exact Hin.
  cbv zeta.
  assert (Hcut : (48 <= List.length (firstn 256 payload))%nat)
    by (rewrite length_firstn; lia).
  destruct (UnpackSpec.unpack_response_long (set_mode 3 (set_vn 3 self)) _ Hcut)
    as [Heq _].
  rewrite Heq, firstn_firstn. change (Nat.min 48 256) with 48%nat.
  assert (H48 : List.length (firstn 48 payload) = 48%nat)
    by (rewrite length_firstn; lia).
  pose proof (unpack_response_returns (set_mode 3 (set_vn 3 self)) _ H48) as Hret.
  destruct (unpacked_timestamps (set_mode 3 (set_vn 3 self)) _ H48)
    as (_ & _ & _ & Htx).
  rewrite CodecExtra.value_at_all in Htx. cbn [nth] in Htx.
  rewrite decode_Q in Htx.
  change (from_bytes_big (slice (firstn 48 payload) 40 48))
    with (timestamp_field (firstn 48 payload) 40) in Htx.
  rewrite (timestamp_high_half (firstn 48 payload) 40) in Htx by lia.
  assert (Hws : whole_seconds (firstn 48 payload) 40 = whole_seconds payload 40).
  { unfold whole_seconds, slice. rewrite skipn_firstn_comm, firstn_firstn.
    reflexivity. }
  rewrite Hws in Htx.
  destruct (unpack_response (firstn 48 payload) (set_mode 3 (set_vn 3 self)))
    as [self2 [e | []]]; cbn [fst snd] in *; [discriminate|].
  repeat apply conj; try reflexivity.
  - rewrite Htx. reflexivity.
  - cbn [set_fds set_inbox set_outbox open_fds next_fd outbox inbox].
    rewrite remove_cons. apply notin_remove. exact Hfresh.
Qed.

(** X10: resolution and sending work, but none of the datagrams that
    arrive comes from the resolved address.  Then [query_time] raises
    the timeout [OSError]; every datagram was read and dropped without
    being parsed, so the client holds no decoded value from them; one
    request was sent and no more (no retry). *)
Theorem query_time_only_strangers :
  (forall d, In d (inbox w) -> sockaddr_eqb (snd d) (last_of info) = false) ->
  let '((self', w'), outcome) := query_time (self, w) in
  outcome = inl (OSError ETIMEDOUT)
  /\ is_OSError (OSError ETIMEDOUT) = true
  /\ self' = set_mode 3 (set_vn 3 self)
  /\ inbox w' = []
  /\ outbox w' = outbox w
                 ++ [(request_head ++ [x83; xaa; x7e; x80] ++ repeat x00 20, last_of info)].
Proof.
  intro Hstr.
  rewrite (query_time_after_send self w info others Hdns Hsend).
  rewrite recv_matching_drained by exact Hstr.
  repeat apply conj; reflexivity.
Qed.

End Exchange.

Lemma query_time_answer_witness :
  let w := world None [(repeat x00 48, stranger); (sample_reply, server);
                       (repeat x00 3, server)] in
  let '((self', w'), outcome) := query_time (default_client, w) in
  outcome = inr (whole_seconds sample_reply 40 - 2208988800)
  /\ self' = fst (unpack_response sample_reply (set_mode 3 (set_vn 3 default_client)))
  /\ outbox w' = outbox w
                 ++ [(request_head ++ [x83; xaa; x7e; x80] ++ repeat x00 20,
                      last_of (2, 2, 17, EmptyString, server))]
  /\ inbox w' = [(repeat x00 3, server)]
  /\ open_fds w' = open_fds w.
Proof.
  refine (query_time_answer default_client
            (world None [(repeat x00 48, stranger); (sample_reply, server);
                         (repeat x00 3, server)])
            (2, 2, 17, EmptyString, server) [] _ eq_refl eq_refl
            [(repeat x00 48, stranger)] sample_reply server [(repeat x00 3, server)]
            eq_refl _ eq_refl eq_refl).
  - intros [].
  - intros d [<- | []]. reflexivity.
Defined.

Lemma query_time_short_reply_witness :
  let w := world None [(repeat x00 47, server)] in
  let '((self', w'), outcome) := query_time (default_client, w) in
  outcome = inl (ValueError "buffer too small")
  /\ is_OSError (ValueError "buffer too small") = false
  /\ self' = set_mode 3 (set_vn 3 default_client)
  /\ inbox w' = []
  /\ open_fds w' = open_fds w.
Proof.
  refine (query_time_short_reply default_client (world None [(repeat x00 47, server)])
            (2, 2, 17, EmptyString, server) [] _ eq_refl eq_refl
            [] (repeat x00 47) server [] eq_refl _ eq_refl _).
  - intros [].
  - intros d [].
  - rewrite repeat_length. lia.
Defined.

Lemma query_time_long_reply_witness :
  let w := world None [(sample_reply ++ repeat xff 20, server)] in
  let '((self', w'), outcome) := query_time (default_client, w) in
  outcome = inr (whole_seconds (sample_reply ++ repeat xff 20) 40 - 2208988800)
  /\ self' = fst (unpack_response (firstn 48 (sample_reply ++ repeat xff 20))
                                  (set_mode 3 (set_vn 3 default_client)))
  /\ inbox w' = []
  /\ open_fds w' = open_fds w.
Proof.
  refine (query_time_long_reply default_client
            (world None [(sample_reply ++ repeat xff 20, server)])
            (2, 2, 17, EmptyString, server) [] _ eq_refl eq_refl
            [] (sample_reply ++ repeat xff 20) server [] eq_refl _ eq_refl _).
  - intros [].
  - intros d [].
  - vm_compute. lia.
Defined.

(** A reply of 68 bytes (48 and an authenticator) gives the time of
    its first 48 bytes. *)
Example query_time_long_reply_time :
  snd (query_time (default_client,
                   world None [(sample_reply ++ repeat xff 20, server)]))
  = inr 1700000000.
Proof. vm_compute. reflexivity. Qed.

Lemma query_time_only_strangers_witness :
  let w := world None [(sample_reply, stranger)] in
  let '((self', w'), outcome) := query_time (default_client, w) in
  outcome = inl (OSError ETIMEDOUT)
  /\ is_OSError (OSError ETIMEDOUT) = true
  /\ self' = set_mode 3 (set_vn 3 default_client)
  /\ inbox w' = []
  /\ outbox w' = outbox w
                 ++ [(request_head ++ [x83; xaa; x7e; x80] ++ repeat x00 20,
                      last_of (2, 2, 17, EmptyString, server))].
Proof.
  refine (query_time_only_strangers default_client (world None [(sample_reply, stranger)])
            (2, 2, 17, EmptyString, server) [] eq_refl eq_refl _).
  intros d [<- | []]. reflexivity.
Defined.

(** X11: when address resolution raises, [query_time] raises the same
    exception and has done nothing: no socket was opened, nothing was
    sent or read, and the client is as before (not even [vn] and
    [mode] were reset). *)
Theorem resolution_failure_does_nothing (self : Client) (w : World) (e : exn) :
  dns w (host self) (port self) = inl e ->
  query_time (self, w) = ((self, w), inl e).
Proof. exact (query_time_resolution_failure self w e). Qed.

Lemma resolution_failure_does_nothing_witness :
  let w := mkWorld (fun _ _ => inl (OSError (-2))) None [] [] [] 0 in
  query_time (default_client, w) = ((default_client, w), inl (OSError (-2))).
Proof.
  exact (resolution_failure_does_nothing default_client
           (mkWorld (fun _ _ => inl (OSError (-2))) None [] [] [] 0)
           (OSError (-2)) eq_refl).
Defined.

End QueryExtra.


(* ================================================================= *)
(** ** The checksum of the SHT31 driver *)

Module CrcFacts.

Import Struct Dev Sht31 Wire Terms StructFacts.

Lemma in_all_bytes (x : Z) : 0 <= x < 256 -> In x all_bytes.
Proof.
  intro H. unfold all_bytes. apply in_map_iff. exists (Z.to_nat x).
  split; [lia | apply in_seq; lia].
Qed.

(** A boolean property checked on every byte value holds of every
    byte value; the same for pairs. *)
Lemma byte_cases (P : Z -> bool) :
  forallb P all_bytes = true -> forall x, 0 <= x < 256 -> P x = true.
Proof.
  intros H x Hx. rewrite forallb_forall in H. apply H, in_all_bytes, Hx.
Qed.

Lemma byte_pair_cases (P : Z -> Z -> bool) :
  forallb (fun x => forallb (P x) all_bytes) all_bytes = true ->
  forall x y, 0 <= x < 256 -> 0 <= y < 256 -> P x y = true.
Proof.
  intros H x y Hx Hy.
  apply (byte_cases (P x)); [|exact Hy].
  apply (byte_cases (fun x => forallb (P x) all_bytes) H x Hx).
Qed.

Lemma in_byte_range_spec (v : Z) : in_byte_range v = true <-> 0 <= v < 256.
Proof. unfold in_byte_range. rewrite andb_true_iff, Z.leb_le, Z.ltb_lt. tauto. Qed.

Lemma crc_update_shifts (crc : Z) (b : byte) :
  crc_update crc b = shifts (Z.land (Z.lxor crc (Z_of_byte b)) 255).
Proof. reflexivity. Qed.

Lemma shifts_range (c : Z) : 0 <= c < 256 -> 0 <= shifts c < 256.
Proof.
  intro H. apply in_byte_range_spec.
  apply (byte_cases (fun c => in_byte_range (shifts c))); [vm_compute; reflexivity | exact H].
Qed.

(** The eight shifts lose nothing: different bytes give different
    checksums. *)
Lemma shifts_injective (c d : Z) :
  0 <= c < 256 -> 0 <= d < 256 -> shifts c = shifts d -> c = d.
Proof.
  intros Hc Hd H.
  pose proof (byte_pair_cases (fun c d => implb (shifts c =? shifts d) (c =? d))
                ltac:(vm_compute; reflexivity) c d Hc Hd) as Hcheck.
  cbv beta in Hcheck. rewrite H, Z.eqb_refl in Hcheck. cbn in Hcheck.
  apply Z.eqb_eq. exact Hcheck.
Qed.

Lemma lxor_byte_range (c x : Z) :
  0 <= c < 256 -> 0 <= x < 256 -> 0 <= Z.lxor c x < 256.
Proof.
  intros Hc Hx. apply in_byte_range_spec.
  exact (byte_pair_cases (fun c x => in_byte_range (Z.lxor c x))
           ltac:(vm_compute; reflexivity) c x Hc Hx).
Qed.

Lemma land_255_byte (v : Z) : 0 <= v < 256 -> Z.land v 255 = v.
Proof.
  intro H. change 255 with (Z.ones 8). rewrite Z.land_ones by lia.
  apply Z.mod_small. exact H.
Qed.

Lemma lxor_cancel_l (c x y : Z) : Z.lxor c x = Z.lxor c y -> x = y.
Proof.
  intro H. apply (f_equal (Z.lxor c)) in H.
  now rewrite <- !Z.lxor_assoc, Z.lxor_nilpotent, !Z.lxor_0_l in H.
Qed.

Lemma lxor_cancel_r (c d x : Z) : Z.lxor c x = Z.lxor d x -> c = d.
Proof.
  intro H. rewrite (Z.lxor_comm c), (Z.lxor_comm d) in H. now apply lxor_cancel_l in H.
Qed.

Lemma Z_of_byte_injective (a b : byte) : Z_of_byte a = Z_of_byte b -> a = b.
Proof.
  unfold Z_of_byte. intro H. apply N2Z.inj in H.
  pose proof (Byte.of_to_N a) as Ha. rewrite H, Byte.of_to_N in Ha. congruence.
Qed.

Lemma crc_update_range (crc : Z) (b : byte) :
  0 <= crc < 256 -> 0 <= crc_update crc b < 256.
Proof.
  intro H. rewrite crc_update_shifts. apply shifts_range.
  rewrite land_255_byte; apply lxor_byte_range; auto using Z_of_byte_range.
Qed.

Lemma fold_crc_range (buf : bytes) :
  forall crc, 0 <= crc < 256 -> 0 <= fold_left crc_update buf crc < 256.
Proof.
  induction buf as [|b buf IH]; intros crc H; cbn [fold_left].
  - exact H.
  - apply IH, crc_update_range, H.
Qed.

Lemma crc_update_injective_byte (crc : Z) (a b : byte) :
  0 <= crc < 256 -> crc_update crc a = crc_update crc b -> a = b.
Proof.
  intros Hc H. rewrite !crc_update_shifts in H.
  pose proof (Z_of_byte_range a). pose proof (Z_of_byte_range b).
  rewrite !land_255_byte in H by (apply lxor_byte_range; assumption).
  apply shifts_injective in H; try (apply lxor_byte_range; assumption).
  apply lxor_cancel_l in H. apply Z_of_byte_injective, H.
Qed.

Lemma crc_update_injective_state (c d : Z) (b : byte) :
  0 <= c < 256 -> 0 <= d < 256 -> crc_update c b = crc_update d b -> c = d.
Proof.
  intros Hc Hd H. rewrite !crc_update_shifts in H.
  pose proof (Z_of_byte_range b).
  rewrite !land_255_byte in H by (apply lxor_byte_range; assumption).
  apply shifts_injective in H; try (apply lxor_byte_range; assumption).
  apply lxor_cancel_r in H. exact H.
Qed.

Lemma fold_crc_injective_state (buf : bytes) :
  forall c d, 0 <= c < 256 -> 0 <= d < 256 ->
    fold_left crc_update buf c = fold_left crc_update buf d -> c = d.
Proof.
  induction buf as [|b buf IH]; intros c d Hc Hd H; cbn [fold_left] in H.
  - exact H.
  - apply IH in H; try (apply crc_update_range; assumption).
    apply (crc_update_injective_state c d b Hc Hd H).
Qed.

(** X12: [calc_crc] returns a value from 0 to 255 for every buffer; the
    checksum of the empty buffer is 0xFF. *)
Theorem calc_crc_is_a_byte (buf : bytes) :
  0 <= calc_crc buf <= 255 /\ calc_crc [] = 255.
Proof.
  pose proof (fold_crc_range buf 255 ltac:(lia)) as H. unfold calc_crc.
  split; [lia | reflexivity].
Qed.

(** The check value of the data sheet: the checksum of 0xBE 0xEF is 0x92. *)
Example calc_crc_beef : calc_crc [xbe; xef] = 146.
Proof. reflexivity. Qed.

Lemma crc_differs (front back : bytes) (b b' : byte) :
  b <> b' ->
  calc_crc (front ++ b :: back) <> calc_crc (front ++ b' :: back).
Proof.
  intros Hne H. unfold calc_crc in H. rewrite !fold_left_app in H.
  cbn [fold_left] in H.
  pose proof (fold_crc_range front 255 ltac:(lia)) as Hc.
  apply fold_crc_injective_state in H; try (apply crc_update_range; assumption).
  apply crc_update_injective_byte in H; [contradiction | assumption].
Qed.

(** X13: two buffers that differ in exactly one byte, at any position
    and by any number of bits of that byte, have different checksums. *)
Theorem calc_crc_detects_one_byte (front back : bytes) (b b' : byte) :
  b <> b' ->
  calc_crc (front ++ b :: back) <> calc_crc (front ++ b' :: back).
Proof. exact (crc_differs front back b b'). Qed.

Lemma calc_crc_detects_one_byte_witness :
  calc_crc ([xbe] ++ xef :: []) <> calc_crc ([xbe] ++ xee :: []).
Proof.
  apply (calc_crc_detects_one_byte [xbe] [] xef xee). discriminate.
Defined.

End CrcFacts.


(* ================================================================= *)
(** ** The measurement of the SHT31 driver *)

Module Sht31Spec.

Import Struct Dev Sht31 Wire Terms StructFacts CrcFacts.

Section Measured.

Context {F : FloatOps}.

Variables (self : SHT31) (b : Board) (f0 f1 f2 f3 f4 f5 : byte) (more : list byte).

Hypothesis Hack : responsive b.
Hypothesis Hrx : rx b = f0 :: f1 :: f2 :: f3 :: f4 :: f5 :: more.

(** One measurement on a bus that answers with the frame [f0..f5]. *)
Lemma take_measurement_run :
  take_measurement self b
  = (mkBoard (log b ++ [WriteTo (address self) [x2c; x06]; Sleep 100;
                        ReadFrom (address self) 6]) [] more,
     if negb (calc_crc [f0; f1] =? Z_of_byte f2)
     then inl (ValueError "temp CRC mismatch")
     else if negb (calc_crc [f3; f4] =? Z_of_byte f5)
     then inl (ValueError "humidity CRC mismatch")
     else
       inr (if use_celcius self
            then fsub (fdiv (fmul (of_int (Z.shiftl (Z_of_byte f0) 8 + Z_of_byte f1))
                                  (of_int 175)) (of_int 65535)) (of_int 45)
            else fsub (fdiv (fmul (of_int (Z.shiftl (Z_of_byte f0) 8 + Z_of_byte f1))
                                  (of_int 315)) (of_int 65535)) (of_int 49),
            fdiv (fmul (of_int (Z.shiftl (Z_of_byte f3) 8 + Z_of_byte f4))
                       (of_int 100)) (of_int 65535))).
Proof.
  destruct b as [lg ak r]. unfold responsive in Hack. cbn [acks rx] in Hack, Hrx.
  subst ak r.
  cbv beta iota zeta delta [take_measurement bind writeto sleep_ms readfrom transfer
                            emit acks rx log List.length Nat.leb firstn skipn
                            raise ret].
  rewrite <- !app_assoc. cbn [app].
  change (slice [f0; f1; f2; f3; f4; f5] 0 2) with [f0; f1].
  change (slice [f0; f1; f2; f3; f4; f5] 3 5) with [f3; f4].
  change (item [f0; f1; f2; f3; f4; f5] 2) with (Z_of_byte f2).
  change (item [f0; f1; f2; f3; f4; f5] 5) with (Z_of_byte f5).
  destruct (negb (calc_crc [f0; f1] =? Z_of_byte f2)); [reflexivity|].
  destruct (negb (calc_crc [f3; f4] =? Z_of_byte f5)); reflexivity.
Qed.

(** X14: on a bus that acknowledges and delivers a frame of six bytes,
    [take_measurement] sends the command 0x2C 0x06, waits 100 ms and
    reads six bytes; it raises the temperature mismatch when the
    checksum of bytes 0..1 is not byte 2 (whatever the humidity part
    holds), the humidity mismatch when only the checksum of bytes 3..4
    is not byte 5, and returns a pair exactly when both match. *)
Theorem take_measurement_checks :
  let '(b', outcome) := take_measurement self b in
  log b' = log b ++ [WriteTo (address self) [x2c; x06]; Sleep 100; ReadFrom (address self) 6]
  /\ rx b' = more
  /\ (calc_crc [f0; f1] <> Z_of_byte f2 ->
      outcome = inl (ValueError "temp CRC mismatch"))
  /\ (calc_crc [f0; f1] = Z_of_byte f2 -> calc_crc [f3; f4] <> Z_of_byte f5 ->
      outcome = inl (ValueError "humidity CRC mismatch"))
  /\ ((exists pair, outcome = inr pair)
      <-> calc_crc [f0; f1] = Z_of_byte f2 /\ calc_crc [f3; f4] = Z_of_byte f5).
Proof.
  rewrite take_measurement_run.
  split; [reflexivity|]. split; [reflexivity|].
  destruct (Z.eqb_spec (calc_crc [f0; f1]) (Z_of_byte f2)) as [Ht | Ht]; cbn [negb].
  - destruct (Z.eqb_spec (calc_crc [f3; f4]) (Z_of_byte f5)) as [Hh | Hh]; cbn [negb].
    + split; [intro; contradiction|]. split; [intros _ Hn; contradiction|].
      split; [auto | intros _; eexists; reflexivity].
    + split; [intro; contradiction|]. split; [intros; reflexivity|].
      split; [intros [pair Hp]; discriminate | intros [_ Hx]; contradiction].
  - split; [intros _; reflexivity|]. split; [intro; contradiction|].
    split; [intros [pair Hp]; discriminate | intros [Hx _]; contradiction].
Qed.

End Measured.

Lemma take_measurement_checks_witness :
  let b := mkBoard [] [] [xbe; xef; x92; xbe; xef; x92] in
  let '(b', outcome) :=
    take_measurement (F := rational_arithmetic) (init 68 true) b in
  log b' = log b ++ [WriteTo 68 [x2c; x06]; Sleep 100; ReadFrom 68 6]
  /\ rx b' = []
  /\ (calc_crc [xbe; xef] <> Z_of_byte x92 ->
      outcome = inl (ValueError "temp CRC mismatch"))
  /\ (calc_crc [xbe; xef] = Z_of_byte x92 -> calc_crc [xbe; xef] <> Z_of_byte x92 ->
      outcome = inl (ValueError "humidity CRC mismatch"))
  /\ ((exists pair, outcome = inr pair)
      <-> calc_crc [xbe; xef] = Z_of_byte x92 /\ calc_crc [xbe; xef] = Z_of_byte x92).
Proof.
  exact (take_measurement_checks (F := rational_arithmetic) (init 68 true)
           (mkBoard [] [] [xbe; xef; x92; xbe; xef; x92])
           xbe xef x92 xbe xef x92 [] eq_refl eq_refl).
Defined.

Lemma list_of_length_6 {A} (l : list A) :
  List.length l = 6%nat -> exists a b c d e f, l = [a; b; c; d; e; f].
Proof.
  intro H. do 6 (destruct l as [|? l]; [discriminate|]).
  destruct l; [|discriminate]. repeat eexists.
Qed.

(** X15: take a frame of six bytes with both checksums right and
    change exactly one of its bytes, anywhere (data or checksum byte)
    and by any number of bits.  A measurement that reads the changed
    frame raises [ValueError]: it never returns values from it. *)
Theorem corrupted_frame_rejected {F : FloatOps} (self : SHT31) (b : Board)
        (frame : bytes) (i : nat) (c : byte) (more : list byte) :
  responsive b ->
  List.length frame = 6%nat ->
  calc_crc (slice frame 0 2) = item frame 2 ->
  calc_crc (slice frame 3 5) = item frame 5 ->
  (i < 6)%nat ->
  c <> nth i frame x00 ->
  rx b = firstn i frame ++ c :: skipn (S i) frame ++ more ->
  exists msg, snd (take_measurement self b) = inl (ValueError msg).
Proof.
  intros Hack Hlen Ht Hh Hi Hc Hrx.
  destruct (list_of_length_6 frame Hlen) as (f0 & f1 & f2 & f3 & f4 & f5 & ->).
  change (slice [f0; f1; f2; f3; f4; f5] 0 2) with [f0; f1] in Ht.
  change (slice [f0; f1; f2; f3; f4; f5] 3 5) with [f3; f4] in Hh.
  change (item [f0; f1; f2; f3; f4; f5] 2) with (Z_of_byte f2) in Ht.
  change (item [f0; f1; f2; f3; f4; f5] 5) with (Z_of_byte f5) in Hh.
  assert (Hbad : forall g0 g1 g2 g3 g4 g5,
             rx b = g0 :: g1 :: g2 :: g3 :: g4 :: g5 :: more ->
             calc_crc [g0; g1] <> Z_of_byte g2 \/ calc_crc [g3; g4] <> Z_of_byte g5 ->
             exists msg, snd (take_measurement self b) = inl (ValueError msg)).
  { intros g0 g1 g2 g3 g4 g5 Hg Hor.
    rewrite (take_measurement_run self b g0 g1 g2 g3 g4 g5 more Hack Hg). cbn [snd].
    destruct (Z.eqb_spec (calc_crc [g0; g1]) (Z_of_byte g2)); cbn [negb]; [|eauto].
    destruct (Z.eqb_spec (calc_crc [g3; g4]) (Z_of_byte g5)); cbn [negb]; [|eauto].
    tauto. }
  destruct i as [|[|[|[|[|[|i]]]]]]; try lia; cbn [firstn skipn nth app] in Hrx, Hc;
    apply (Hbad _ _ _ _ _ _ Hrx).
  - left. rewrite <- Ht. apply (crc_differs [] [f1]). exact Hc.
  - left. rewrite <- Ht. apply (crc_differs [f0] []). exact Hc.
  - left. rewrite Ht. intro E. apply Z_of_byte_injective in E. congruence.
  - right. rewrite <- Hh. apply (crc_differs [] [f4]). exact Hc.
  - right. rewrite <- Hh. apply (crc_differs [f3] []). exact Hc.
  - right. rewrite Hh. intro E. apply Z_of_byte_injective in E. congruence.
Qed.

Lemma corrupted_frame_rejected_witness :
  exists msg,
    snd (take_measurement (F := rational_arithmetic) (init 68 false)
           (mkBoard [] [] [xbe; xef; x92; xbe; xaf; x92]))
    = inl (ValueError msg).
Proof.
  apply (corrupted_frame_rejected (F := rational_arithmetic) (init 68 false)
           (mkBoard [] [] [xbe; xef; x92; xbe; xaf; x92])
           [xbe; xef; x92; xbe; xef; x92] 4 xaf []);
    try reflexivity; [lia | discriminate].
Defined.

End Sht31Spec.


(* ================================================================= *)
(** ** The LCD1602 driver *)

Module LcdSpec.

Import Struct Dev Lcd1602 Terms StructFacts CrcFacts.

Local Open Scope dev_scope.

Lemma emit_emit (e1 e2 : list event) (b : Board) :
  emit e2 (emit e1 b) = emit (e1 ++ e2) b.
Proof. unfold emit. cbn [log acks rx]. now rewrite app_assoc. Qed.

Lemma emit_nil (b : Board) : emit [] b = b.
Proof. destruct b. unfold emit. cbn. now rewrite app_nil_r. Qed.

Lemma responsive_emit (evs : list event) (b : Board) :
  responsive b -> responsive (emit evs b).
Proof. intro H. exact H. Qed.

Lemma writeto_mem_ok (addr memaddr : Z) (text : list Z) (b : Board) :
  responsive b ->
  writeto_mem addr memaddr text b = (emit [WriteMem addr memaddr text] b, inr tt).
Proof.
  intro H. unfold writeto_mem, bind, transfer. rewrite H. reflexivity.
Qed.

Lemma writeto_ok (addr : Z) (buf : bytes) (b : Board) :
  responsive b -> writeto addr buf b = (emit [WriteTo addr buf] b, inr tt).
Proof.
  intro H. unfold writeto, bind, transfer. rewrite H. reflexivity.
Qed.

Lemma chr_ok (v : Z) : 0 <= v < 1114112 -> chr v = inr [v].
Proof.
  intro H. unfold chr.
  destruct (Z.leb_spec 0 v), (Z.ltb_spec v 1114112); cbn [andb]; try lia. reflexivity.
Qed.

Lemma write_to_ir_ok (self : LCD1602) (v : Z) (b : Board) :
  responsive b -> 0 <= v < 1114112 ->
  write_to_ir self v b = (emit [WriteMem (address self) 128 [v]] b, inr tt).
Proof.
  intros H Hv. unfold write_to_ir. rewrite (chr_ok v Hv). now apply writeto_mem_ok.
Qed.

Lemma write_to_dr_ok (self : LCD1602) (v : Z) (b : Board) :
  responsive b -> 0 <= v < 1114112 ->
  write_to_dr self v b = (emit [WriteMem (address self) 64 [v]] b, inr tt).
Proof.
  intros H Hv. unfold write_to_dr. rewrite (chr_ok v Hv). now apply writeto_mem_ok.
Qed.

(** X16: on a bus that acknowledges, each of the four flag commands
    writes one instruction to the instruction register: the opcode
    bit of the command plus one bit per flag.  The instructions of
    the four commands lie in separate ranges: entry mode 4..7, display
    control 8..15, shift 16..28, function set 32..60. *)
Theorem flag_instructions (self : LCD1602) (b : Board) (x y z : bool) :
  responsive b ->
  let bit (flag : bool) (k : Z) := if flag then 2 ^ k else 0 in
  let written (v : Z) := (emit [WriteMem (address self) 128 [v]] b, inr tt) in
  entry_mode_set self x y b = written (4 + bit x 1 + bit y 0)
  /\ display_control self x y z b = written (8 + bit x 2 + bit y 1 + bit z 0)
  /\ cursor_or_display_shift self x y b = written (16 + bit x 3 + bit y 2)
  /\ function_set self x y z b = written (32 + bit x 4 + bit y 3 + bit z 2)
  /\ 4 <= 4 + bit x 1 + bit y 0 <= 7
  /\ 8 <= 8 + bit x 2 + bit y 1 + bit z 0 <= 15
  /\ 16 <= 16 + bit x 3 + bit y 2 <= 28
  /\ 32 <= 32 + bit x 4 + bit y 3 + bit z 2 <= 60.
Proof.
  intros H bit written. subst bit written. cbv beta.
  unfold entry_mode_set, display_control, cursor_or_display_shift, function_set.
  destruct x, y, z; cbv zeta; repeat apply conj;
    first [ rewrite write_to_ir_ok; [reflexivity | exact H | vm_compute; split; congruence]
          | vm_compute; congruence ].
Qed.

Lemma flag_instructions_witness :
  let self := mkLCD1602 62 in
  let b := mkBoard [] [] [] in
  let written (v : Z) := (emit [WriteMem 62 128 [v]] b, inr tt) in
  entry_mode_set self true false b = written 6
  /\ display_control self true false false b = written 12
  /\ cursor_or_display_shift self true false b = written 24
  /\ function_set self false true false b = written 40.
Proof.
  destruct (flag_instructions (mkLCD1602 62) (mkBoard [] [] []) true false false eq_refl)
    as (He & Hd & Hs & _).
  destruct (flag_instructions (mkLCD1602 62) (mkBoard [] [] []) false true false eq_refl)
    as (_ & _ & _ & Hf & _).
  repeat apply conj; assumption.
Defined.

(** X24: on a bus that acknowledges, the constructor sends function
    set four times, each time the instruction 40 (4-bit interface, two
    lines, 8 dots) followed by a wait of 5 ms, then display control
    with the display on and the cursor and blink flags it was given
    (12 + 2 cursor + blink), then entry mode 6 (increment, no shift):
    six instructions, and the display is on whatever the flags are. *)
Theorem init_sequence (addr : Z) (cursor_on blink_on : bool) (b : Board) :
  responsive b ->
  let bit (flag : bool) (k : Z) := if flag then 2 ^ k else 0 in
  init addr cursor_on blink_on b
  = (emit [WriteMem addr 128 [40]; Sleep 5; WriteMem addr 128 [40]; Sleep 5;
           WriteMem addr 128 [40]; Sleep 5; WriteMem addr 128 [40]; Sleep 5;
           WriteMem addr 128 [12 + bit cursor_on 1 + bit blink_on 0];
           WriteMem addr 128 [6]] b,
     inr (mkLCD1602 addr)).
Proof.
  intros H bit. subst bit. cbv beta.
  destruct b as [lg ak r]. unfold responsive in H. cbn [acks] in H. subst ak.
  destruct cursor_on, blink_on; cbv -[app]; rewrite <- !app_assoc; reflexivity.
Qed.

Lemma init_sequence_witness :
  init 62 false false (mkBoard [] [] [])
  = (emit [WriteMem 62 128 [40]; Sleep 5; WriteMem 62 128 [40]; Sleep 5;
           WriteMem 62 128 [40]; Sleep 5; WriteMem 62 128 [40]; Sleep 5;
           WriteMem 62 128 [12]; WriteMem 62 128 [6]] (mkBoard [] [] []),
     inr (mkLCD1602 62)).
Proof.
  exact (init_sequence 62 false false (mkBoard [] [] []) eq_refl).
Defined.

Lemma lor_opcode (x : Z) :
  (0 <= x < 64 -> Z.lor 64 x = 64 + x) /\ (0 <= x < 128 -> Z.lor 128 x = 128 + x)
  /\ (0 <= x < 64 -> Z.lor x 128 = 128 + x)
  /\ (0 <= x < 64 -> Z.lor x 192 = 192 + x).
Proof.
  repeat apply conj; intro H.
  - pose proof (byte_cases (fun x => implb (x <? 64) (Z.lor 64 x =? 64 + x))
                  ltac:(vm_compute; reflexivity) x ltac:(lia)) as Hc.
    cbv beta in Hc. destruct (Z.ltb_spec x 64); [|lia]. now apply Z.eqb_eq.
  - pose proof (byte_cases (fun x => implb (x <? 128) (Z.lor 128 x =? 128 + x))
                  ltac:(vm_compute; reflexivity) x ltac:(lia)) as Hc.
    cbv beta in Hc. destruct (Z.ltb_spec x 128); [|lia]. now apply Z.eqb_eq.
  - pose proof (byte_cases (fun x => implb (x <? 64) (Z.lor x 128 =? 128 + x))
                  ltac:(vm_compute; reflexivity) x ltac:(lia)) as Hc.
    cbv beta in Hc. destruct (Z.ltb_spec x 64); [|lia]. now apply Z.eqb_eq.
  - pose proof (byte_cases (fun x => implb (x <? 64) (Z.lor x 192 =? 192 + x))
                  ltac:(vm_compute; reflexivity) x ltac:(lia)) as Hc.
    cbv beta in Hc. destruct (Z.ltb_spec x 64); [|lia]. now apply Z.eqb_eq.
Qed.

(** X17: for every integer address, negative or too large ones
    included, [set_cgram_address] writes the instruction
    64 + address mod 64 and [set_ddram_address] the instruction
    128 + address mod 128: the address is cut to the width of its field
    and can neither change the opcode bit nor make the write fail. *)
Theorem address_instructions (self : LCD1602) (b : Board) (addr : Z) :
  responsive b ->
  set_cgram_address self addr b
  = (emit [WriteMem (address self) 128 [64 + addr mod 64]] b, inr tt)
  /\ set_ddram_address self addr b
     = (emit [WriteMem (address self) 128 [128 + addr mod 128]] b, inr tt)
  /\ 64 <= 64 + addr mod 64 <= 127
  /\ 128 <= 128 + addr mod 128 <= 255.
Proof.
  intro H. unfold set_cgram_address, set_ddram_address. cbv zeta.
  pose proof (Z.mod_pos_bound addr 64 ltac:(lia)) as H6.
  pose proof (Z.mod_pos_bound addr 128 ltac:(lia)) as H7.
  change 63 with (Z.ones 6). change 127 with (Z.ones 7).
  rewrite !Z.land_ones by lia.
  change (2 ^ 6) with 64 in *. change (2 ^ 7) with 128 in *.
  change INSTR_SET_CGRAM_ADDRESS with 64. change INSTR_SET_DDRAM_ADDRESS with 128.
  destruct (lor_opcode (addr mod 64)) as (E6 & _).
  destruct (lor_opcode (addr mod 128)) as (_ & E7 & _).
  rewrite E6, E7 by lia.
  change (Z.ones 7) with 127. change (Z.ones 6) with 63.
  repeat apply conj; try lia; apply write_to_ir_ok; (exact H || lia).
Qed.

Lemma address_instructions_witness :
  let self := mkLCD1602 62 in
  let b := mkBoard [] [] [] in
  set_cgram_address self (-1) b = (emit [WriteMem 62 128 [127]] b, inr tt)
  /\ set_ddram_address self 200 b = (emit [WriteMem 62 128 [200]] b, inr tt).
Proof.
  split.
  - apply (address_instructions (mkLCD1602 62) (mkBoard [] [] []) (-1) eq_refl).
  - apply (address_instructions (mkLCD1602 62) (mkBoard [] [] []) 200 eq_refl).
Defined.


(** X18: on a bus that acknowledges, for a column from 0 to 63,
    [move_cursor] writes the two bytes 0x80 and 0x80 + col for row 0,
    and 0x80 and 0xC0 + col for every other row value (any row other
    than 0 is taken as the second row); column 64 + col on row 0 is
    the same command as column col on the second row. *)
Theorem move_cursor_command (self : LCD1602) (b : Board) (col row : Z) :
  responsive b -> 0 <= col < 64 ->
  move_cursor self col 0 b
  = (emit [WriteTo (address self) [x80; byte_of_Z (128 + col)]] b, inr tt)
  /\ (row <> 0 ->
      move_cursor self col row b
      = (emit [WriteTo (address self) [x80; byte_of_Z (192 + col)]] b, inr tt))
  /\ move_cursor self (64 + col) 0 b = move_cursor self col 1 b
  /\ Z_of_byte (byte_of_Z (128 + col)) = 128 + col
  /\ Z_of_byte (byte_of_Z (192 + col)) = 192 + col.
Proof.
  intros H Hcol.
  destruct (lor_opcode col) as (_ & _ & E128 & E192).
  specialize (E128 Hcol). specialize (E192 Hcol).
  assert (E64 : Z.lor (64 + col) 128 = 192 + col).
  { pose proof (byte_cases (fun x => implb (x <? 64) (Z.lor (64 + x) 128 =? 192 + x))
                  ltac:(vm_compute; reflexivity) col ltac:(lia)) as Hc.
    cbv beta in Hc. destruct (Z.ltb_spec col 64); [|lia]. now apply Z.eqb_eq. }
  assert (Hrun : forall v, 128 <= v < 256 ->
            (match bytearray_of [128; v] with
             | inl e => raise e
             | inr buf => writeto (address self) buf
             end) b
            = (emit [WriteTo (address self) [x80; byte_of_Z v]] b, inr tt)).
  { intros v Hv. unfold bytearray_of. cbn [forallb map].
    destruct (Z.leb_spec 0 v), (Z.ltb_spec v 256); try lia. cbn [andb].
    now apply writeto_ok. }
  repeat apply conj.
  - unfold move_cursor. cbn [Z.eqb]. cbv zeta. rewrite E128. apply Hrun. lia.
  - intro Hrow. unfold move_cursor. destruct (Z.eqb_spec row 0); [contradiction|].
    cbv zeta. rewrite E192. apply Hrun. lia.
  - unfold move_cursor. cbn [Z.eqb]. cbv zeta. rewrite E64, E192. reflexivity.
  - rewrite Z_of_byte_of_Z. apply Z.mod_small. lia.
  - rewrite Z_of_byte_of_Z. apply Z.mod_small. lia.
Qed.

Lemma move_cursor_command_witness :
  let self := mkLCD1602 62 in
  let b := mkBoard [] [] [] in
  move_cursor self 0 0 b = (emit [WriteTo 62 [x80; x80]] b, inr tt)
  /\ move_cursor self 0 1 b = (emit [WriteTo 62 [x80; xc0]] b, inr tt).
Proof.
  split.
  - apply (move_cursor_command (mkLCD1602 62) (mkBoard [] [] []) 0 1 eq_refl). lia.
  - destruct (move_cursor_command (mkLCD1602 62) (mkBoard [] [] []) 0 1 eq_refl
                ltac:(lia)) as (_ & Hrow & _).
    apply Hrow. discriminate.
Defined.

Lemma utf8_range (s : string) : forall x, In x (utf8 s) -> 0 <= x < 256.
Proof.
  induction s as [|a s IH]; intros x Hx; cbn [utf8] in Hx; [contradiction|].
  assert (Ha : 0 <= Z.of_N (N_of_ascii a) < 256)
    by (pose proof (N_ascii_bounded a); lia).
  set (c := Z.of_N (N_of_ascii a)) in *.
  pose proof (byte_cases
                (fun c => in_byte_range (Z.lor 192 (Z.shiftr c 6))
                          && in_byte_range (Z.lor 128 (Z.land c 63)))
                ltac:(vm_compute; reflexivity) c Ha) as Hc.
  cbv beta in Hc. apply andb_prop in Hc. destruct Hc as [H1 H2].
  apply in_byte_range_spec in H1. apply in_byte_range_spec in H2.
  destruct (c <? 128).
  - destruct Hx as [<- | Hx]; [exact Ha | now apply IH].
  - destruct Hx as [<- | [<- | Hx]]; [exact H1 | exact H2 | now apply IH].
Qed.

Lemma utf8_ascii (s : string) :
  (forall c, In c (code_points s) -> c < 128) -> utf8 s = code_points s.
Proof.
  induction s as [|a s IH]; intro H; cbn [utf8 code_points] in *; [reflexivity|].
  pose proof (H _ (or_introl eq_refl)) as Ha.
  destruct (Z.ltb_spec (Z.of_N (N_of_ascii a)) 128); [|lia].
  f_equal. apply IH. intros c Hc. apply H. right. exact Hc.
Qed.

Lemma shown_app (l1 l2 : list event) : shown (l1 ++ l2) = shown l1 ++ shown l2.
Proof.
  induction l1 as [|ev l1 IH]; [reflexivity|].
  cbn [app]. destruct ev as [a m t | | | |]; [| cbn [shown]; exact IH ..].
  destruct (Z.eq_dec m 64) as [-> | Hm].
  - cbn [shown]. rewrite IH. apply app_assoc.
  - assert (Hskip : forall rest, shown (WriteMem a m t :: rest) = shown rest).
    { intro rest. cbn [shown].
      destruct m as [|q|q]; try reflexivity.
      do 7 (try (destruct q as [q|q|]; try reflexivity)).
      now elim Hm. }
    rewrite !Hskip. exact IH.
Qed.

Lemma shown_data_writes (addr : Z) (xs : list Z) :
  shown (map (fun x => WriteMem addr 64 [x]) xs) = xs.
Proof. induction xs as [|x xs IH]; cbn [map shown app]; [reflexivity | now rewrite IH]. Qed.

Lemma write_bytes_ok (self : LCD1602) (xs : list Z) :
  forall b, responsive b -> (forall x, In x xs -> 0 <= x < 256) ->
    write_bytes self xs b
    = (emit (map (fun x => WriteMem (address self) 64 [x]) xs) b, inr tt).
Proof.
  induction xs as [|x xs IH]; intros b H Hr; cbn [write_bytes map].
  - unfold ret. now rewrite emit_nil.
  - unfold bind. rewrite write_to_dr_ok;
      [|exact H | pose proof (Hr x (or_introl eq_refl)); lia].
    rewrite IH; [|exact H | intros y Hy; apply Hr; right; exact Hy].
    rewrite emit_emit. reflexivity.
Qed.

(** X19: on a bus that acknowledges, [write] sends the UTF-8 bytes of
    the string to the data register, one write per byte, in order, and
    nothing else; for a string of ASCII characters these are the
    characters themselves.  Writing a concatenation is writing the
    parts one after the other. *)
Theorem write_sends_the_string (self : LCD1602) (s t : string) (b : Board) :
  responsive b ->
  write self s b = (emit (map (fun x => WriteMem (address self) 64 [x]) (utf8 s)) b, inr tt)
  /\ shown (log (fst (write self s b))) = shown (log b) ++ utf8 s
  /\ ((forall c, In c (code_points s) -> c < 128) -> utf8 s = code_points s)
  /\ write self (s ++ t) b = (write self s;;; write self t) b.
Proof.
  intro H.
  assert (Hw : forall u b', responsive b' ->
             write self u b'
             = (emit (map (fun x => WriteMem (address self) 64 [x]) (utf8 u)) b', inr tt)).
  { intros u b' H'. unfold write. apply write_bytes_ok; [exact H' | apply utf8_range]. }
  assert (Happ : utf8 (s ++ t) = utf8 s ++ utf8 t).
  { induction s as [|a s IH]; cbn [utf8 String.append]; [reflexivity|].
    destruct (Z.of_N (N_of_ascii a) <? 128); cbn [app]; now rewrite IH. }
  repeat apply conj.
  - apply Hw, H.
  - rewrite (Hw s b H). cbn [fst emit log]. now rewrite shown_app, shown_data_writes.
  - apply utf8_ascii.
  - unfold bind. rewrite (Hw (s ++ t)%string b H), (Hw s b H), Hw by exact H.
    rewrite emit_emit, Happ, map_app. reflexivity.
Qed.

Lemma write_sends_the_string_witness :
  let self := mkLCD1602 62 in
  let b := mkBoard [] [] [] in
  shown (log (fst (write self "Got time" b))) = code_points "Got time".
Proof.
  destruct (write_sends_the_string (mkLCD1602 62) "Got time" "" (mkBoard [] [] []) eq_refl)
    as (_ & Hshown & Hascii & _).
  cbv zeta. rewrite Hshown, Hascii; [reflexivity|].
  intros c Hc. vm_compute in Hc.
  repeat (destruct Hc as [<- | Hc]; [reflexivity|]). contradiction.
Defined.

(** X20: when the bus acknowledges [k] transfers and refuses the next
    one while [write] still has bytes to send, [write] raises
    [OSError(EIO)] after exactly the first [k] bytes were written: the
    display is left with a prefix of the text. *)
Theorem write_interrupted (self : LCD1602) (s : string) (k : nat) (later : list bool) :
  forall b,
    acks b = repeat true k ++ false :: later ->
    (k < List.length (utf8 s))%nat ->
    write self s b
    = (mkBoard (log b ++ map (fun x => WriteMem (address self) 64 [x]) (firstn k (utf8 s)))
               later (rx b),
       inl (Exn (OSError EIO))).
Proof.
  unfold write. pose proof (utf8_range s) as Hr. revert k Hr.
  induction (utf8 s) as [|x xs IH]; intros k Hr [lg ak r] Hacks Hk;
    cbn [List.length] in Hk; [lia|]. cbn [acks log rx] in *. subst ak.
  assert (Hx : chr x = inr [x]).
  { apply chr_ok. pose proof (Hr x (or_introl eq_refl)). lia. }
  cbn [write_bytes]. unfold bind at 1, write_to_dr. rewrite Hx.
  destruct k as [|k]; cbn [repeat app firstn map].
  - unfold writeto_mem, bind, transfer. cbn [acks log rx]. now rewrite app_nil_r.
  - unfold writeto_mem, bind, transfer, emit. cbn [acks log rx].
    rewrite (IH k); cbn [acks log rx]; try reflexivity; try lia.
    + now rewrite <- app_assoc.
    + intros y Hy. apply Hr. right. exact Hy.
Qed.

Lemma write_interrupted_witness :
  write (mkLCD1602 62) "Timeout" (mkBoard [] [true; true; false] [])
  = (mkBoard [WriteMem 62 64 [84]; WriteMem 62 64 [105]] [] [],
     inl (Exn (OSError EIO))).
Proof.
  apply (write_interrupted (mkLCD1602 62) "Timeout" 2 [] (mkBoard [] [true; true; false] []));
    [reflexivity | vm_compute; lia].
Defined.

End LcdSpec.


(* ================================================================= *)
(** ** The caller: [update_time] *)

Module DemoSpec.

Import Struct Dev Socket Ntp Lcd1602 Demo Terms StructFacts CrcFacts LcdSpec.

Local Open Scope dev_scope.

Lemma clock_sets_app (l1 l2 : list event) :
  clock_sets (l1 ++ l2) = clock_sets l1 ++ clock_sets l2.
Proof.
  induction l1 as [|ev l1 IH]; [reflexivity|].
  cbn [app]. destruct ev; cbn [clock_sets app]; now rewrite IH.
Qed.

Lemma clock_sets_data_writes (addr m : Z) (xs : list Z) :
  clock_sets (map (fun x => WriteMem addr m [x]) xs) = [].
Proof. induction xs as [|x xs IH]; [reflexivity | exact IH]. Qed.

Lemma logged_logged (e1 e2 : list event) (d : Device) :
  logged e2 (logged e1 d) = logged (e1 ++ e2) d.
Proof. unfold logged. cbn [ntp_time net board]. now rewrite emit_emit. Qed.

Lemma on_board_ok {A} (m : Do Board A) (evs : list event) (a : A) (d : Device) :
  m (board d) = (emit evs (board d), inr a) ->
  on_board m d = (logged evs d, inr a).
Proof. intro H. unfold on_board. rewrite H. reflexivity. Qed.

Section Steps.

Variables (lcd : LCD1602) (d : Device).
Hypothesis Hack : responsive (board d).

Lemma dev_clear :
  on_board (clear_display lcd) d
  = (logged [WriteMem (address lcd) 128 [1]; Sleep 2] d, inr tt).
Proof.
  apply on_board_ok. unfold clear_display, bind.
  rewrite write_to_ir_ok by (exact Hack || (vm_compute; split; congruence)).
  unfold sleep_ms. now rewrite emit_emit.
Qed.

Lemma dev_home :
  on_board (return_home lcd) d
  = (logged [WriteMem (address lcd) 128 [2]; Sleep 2] d, inr tt).
Proof.
  apply on_board_ok. unfold return_home, bind.
  rewrite write_to_ir_ok by (exact Hack || (vm_compute; split; congruence)).
  unfold sleep_ms. now rewrite emit_emit.
Qed.

Lemma dev_write (s : string) :
  on_board (write lcd s) d
  = (logged (map (fun x => WriteMem (address lcd) 64 [x]) (utf8 s)) d, inr tt).
Proof.
  apply on_board_ok. unfold write.
  apply write_bytes_ok; [exact Hack | apply utf8_range].
Qed.

Lemma dev_second_row :
  on_board (move_cursor lcd 0 1) d
  = (logged [WriteTo (address lcd) [x80; xc0]] d, inr tt).
Proof.
  apply on_board_ok. unfold move_cursor, bytearray_of. cbn.
  now apply writeto_ok.
Qed.

Lemma dev_sleep (ms : Z) :
  on_board (sleep_ms ms) d = (logged [Sleep ms] d, inr tt).
Proof. reflexivity. Qed.

End Steps.

(** Clear, home and write, as [update_time] does three times. *)
Lemma dev_banner {A} (lcd : LCD1602) (s : string) (k : Do Device A) (d : Device) :
  responsive (board d) ->
  (on_board (clear_display lcd);;; on_board (return_home lcd);;;
   on_board (write lcd s);;; k) d
  = k (logged (banner (address lcd) s) d).
Proof.
  intro H.
  unfold bind at 1. rewrite dev_clear by exact H.
  unfold bind at 1. rewrite dev_home by exact H.
  unfold bind at 1. rewrite dev_write by exact H.
  rewrite !logged_logged. reflexivity.
Qed.

(** The last statements of [update_time]: wait, clear, home. *)
Lemma dev_epilogue (lcd : LCD1602) (d : Device) :
  responsive (board d) ->
  (on_board (sleep_ms 1000);;; on_board (clear_display lcd);;;
   on_board (return_home lcd)) d
  = (logged [Sleep 1000; WriteMem (address lcd) 128 [1]; Sleep 2;
             WriteMem (address lcd) 128 [2]; Sleep 2] d, inr tt).
Proof.
  intro H.
  unfold bind at 1. rewrite dev_sleep.
  unfold bind at 1. rewrite dev_clear by exact H.
  rewrite dev_home by exact H.
  rewrite !logged_logged. reflexivity.
Qed.

Section Update.

Variables (settings : Settings) (lcd : LCD1602) (localtime : Z -> error + datetime).
Variables (d : Device) (client' : Client) (w' : World).

Hypothesis Hack : responsive (board d).

(** What the handler of [update_time] puts on the display. *)
Lemma handler_run (e : error) (d0 : Device) :
  responsive (board d0) ->
  (on_board (clear_display lcd);;; on_board (return_home lcd);;;
   on_board (write lcd "No time");;; on_board (move_cursor lcd 0 1);;;
   (if is_OSError e then on_board (write lcd "Timeout")
    else on_board (write lcd "Bad data"))) d0
  = (logged (banner (address lcd) "No time"
             ++ [WriteTo (address lcd) [x80; xc0]]
             ++ map (fun x => WriteMem (address lcd) 64 [x])
                    (utf8 (if is_OSError e then "Timeout" else "Bad data"))) d0,
     inr tt).
Proof.
  intro H. rewrite dev_banner by exact H.
  unfold bind at 1. rewrite dev_second_row by exact H.
  destruct (is_OSError e); rewrite dev_write by exact H;
    rewrite !logged_logged; reflexivity.
Qed.

(** [update_time] when the query raises. *)
Lemma update_time_failure_run (e : exn) :
  query_time (Ntp.init (host settings) (port settings) 5, net d) = ((client', w'), inl e) ->
  update_time settings lcd localtime d
  = (mkDevice (ntp_time d) w'
       (emit (banner (address lcd) "Getting time..."
              ++ banner (address lcd) "No time"
              ++ [WriteTo (address lcd) [x80; xc0]]
              ++ map (fun x => WriteMem (address lcd) 64 [x])
                     (utf8 (if Py.is_OSError e then "Timeout" else "Bad data"))
              ++ [Sleep 1000; WriteMem (address lcd) 128 [1]; Sleep 2;
                  WriteMem (address lcd) 128 [2]; Sleep 2])
             (board d)),
     inr tt).
Proof.
  intro Hq. unfold update_time. rewrite dev_banner by exact Hack. cbv zeta.
  unfold bind at 1, try_except.
  unfold bind at 1, call_query_time. cbn [net logged]. rewrite Hq.
  rewrite handler_run by exact Hack.
  rewrite dev_epilogue by exact Hack.
  unfold logged. cbn [ntp_time net board is_OSError].
  rewrite !emit_emit, <- ?app_assoc. reflexivity.
Qed.

(** [update_time] when the query returns [t] and [localtime] answers. *)
Lemma update_time_success_run (t : Z) (y mo dd hh mi ss wd yd : Z) :
  query_time (Ntp.init (host settings) (port settings) 5, net d) = ((client', w'), inr t) ->
  localtime (t + offset settings * 3600) = inr (y, mo, dd, hh, mi, ss, wd, yd) ->
  update_time settings lcd localtime d
  = (mkDevice (t + offset settings * 3600) w'
       (emit (banner (address lcd) "Getting time..."
              ++ banner (address lcd) "Got time"
              ++ [RtcSet (y, mo, dd, wd, hh, mi, ss, yd)]
              ++ [Sleep 1000; WriteMem (address lcd) 128 [1]; Sleep 2;
                  WriteMem (address lcd) 128 [2]; Sleep 2])
             (board d)),
     inr tt).
Proof.
  intros Hq Hlt. unfold update_time. rewrite dev_banner by exact Hack. cbv zeta.
  unfold bind at 1, try_except.
  unfold bind at 1, call_query_time. cbn [net logged]. rewrite Hq.
  unfold bind at 1, assign_ntp_time. cbn [net board].
  rewrite dev_banner by exact Hack.
  unfold bind at 1, read_ntp_time. cbn [ntp_time logged].
  unfold bind at 1. rewrite Hlt.
  unfold on_board at 1, rtc_datetime. cbn [board ntp_time net].
  rewrite dev_epilogue by exact Hack.
  unfold logged. cbn [ntp_time net board].
  rewrite !emit_emit, <- ?app_assoc. reflexivity.
Qed.

(** [update_time] when the query returns [t] and [localtime] raises. *)
Lemma update_time_late_failure_run (t : Z) (e : error) :
  query_time (Ntp.init (host settings) (port settings) 5, net d) = ((client', w'), inr t) ->
  localtime (t + offset settings * 3600) = inl e ->
  update_time settings lcd localtime d
  = (mkDevice (t + offset settings * 3600) w'
       (emit (banner (address lcd) "Getting time..."
              ++ banner (address lcd) "Got time"
              ++ banner (address lcd) "No time"
              ++ [WriteTo (address lcd) [x80; xc0]]
              ++ map (fun x => WriteMem (address lcd) 64 [x])
                     (utf8 (if is_OSError e then "Timeout" else "Bad data"))
              ++ [Sleep 1000; WriteMem (address lcd) 128 [1]; Sleep 2;
                  WriteMem (address lcd) 128 [2]; Sleep 2])
             (board d)),
     inr tt).
Proof.
  intros Hq Hlt. unfold update_time. rewrite dev_banner by exact Hack. cbv zeta.
  unfold bind at 1, try_except.
  unfold bind at 1, call_query_time. cbn [net logged]. rewrite Hq.
  unfold bind at 1, assign_ntp_time. cbn [net board].
  rewrite dev_banner by exact Hack.
  unfold bind at 1, read_ntp_time. cbn [ntp_time logged].
  unfold bind at 1. rewrite Hlt.
  rewrite handler_run by exact Hack.
  rewrite dev_epilogue by exact Hack.
  unfold logged. cbn [ntp_time net board].
  rewrite !emit_emit, <- ?app_assoc. reflexivity.
Qed.

End Update.

Lemma shown_banner (addr : Z) (s : string) : shown (banner addr s) = utf8 s.
Proof. unfold banner. rewrite shown_app, shown_data_writes. reflexivity. Qed.

Lemma clock_sets_banner (addr : Z) (s : string) : clock_sets (banner addr s) = [].
Proof. unfold banner. rewrite clock_sets_app, clock_sets_data_writes. reflexivity. Qed.

(** X21: on a responsive display, when the query of [update_time]
    raises, [update_time] itself returns normally; [ntp_time] keeps its
    value and the clock is not set; the display is sent
    "Getting time...", then "No time" and on its second row "Timeout"
    when the exception is an [OSError] and "Bad data" for any other
    exception (a reply that is too short, for one). *)
Theorem update_time_reports_failure
        (settings : Settings) (lcd : LCD1602) (localtime : Z -> error + datetime)
        (d : Device) (client' : Client) (w' : World) (e : exn) :
  responsive (board d) ->
  query_time (Ntp.init (host settings) (port settings) 5, net d) = ((client', w'), inl e) ->
  let '(d', outcome) := update_time settings lcd localtime d in
  outcome = inr tt
  /\ ntp_time d' = ntp_time d
  /\ net d' = w'
  /\ clock_sets (log (board d')) = clock_sets (log (board d))
  /\ shown (log (board d'))
     = shown (log (board d)) ++ code_points "Getting time..." ++ code_points "No time"
       ++ code_points (if Py.is_OSError e then "Timeout" else "Bad data").
Proof.
  intros Hack Hq.
  rewrite (update_time_failure_run settings lcd localtime d client' w' Hack e Hq).
  cbn [ntp_time net board emit log].
  repeat apply conj; try reflexivity.
  - rewrite !clock_sets_app, !clock_sets_banner, clock_sets_data_writes.
    cbn [clock_sets app]. now rewrite app_nil_r.
  - rewrite !shown_app, !shown_banner, shown_data_writes. cbn [shown app].
    rewrite app_nil_r. destruct (Py.is_OSError e); reflexivity.
Qed.


Lemma update_time_reports_failure_witness :
  let settings := mkSettings Ntp.default_host 123 0 in
  let d := mkDevice 0 Wire.silent_world (mkBoard [] [] []) in
  let '(d', outcome) :=
    update_time settings (mkLCD1602 62) (fun _ => inl (ValueError "")) d in
  outcome = inr tt
  /\ ntp_time d' = 0
  /\ net d' = snd (fst (query_time (Ntp.default_client, Wire.silent_world)))
  /\ clock_sets (log (board d')) = []
  /\ shown (log (board d'))
     = [] ++ code_points "Getting time..." ++ code_points "No time"
       ++ code_points "Timeout".
Proof.
  exact (update_time_reports_failure
           (mkSettings Ntp.default_host 123 0) (mkLCD1602 62)
           (fun _ => inl (ValueError ""))
           (mkDevice 0 Wire.silent_world (mkBoard [] [] []))
           (fst (fst (query_time (Ntp.default_client, Wire.silent_world))))
           (snd (fst (query_time (Ntp.default_client, Wire.silent_world))))
           (OSError ETIMEDOUT) eq_refl eq_refl).
Defined.

(** X22: on a responsive display, when the query returns [t] and
    [localtime] answers, [update_time] sets [ntp_time] to
    t + offset * 3600, sets the clock once, to the calendar tuple of
    that time with the weekday moved from position 6 to position 3,
    and sends "Getting time..." and "Got time" to the display. *)
Theorem update_time_sets_clock
        (settings : Settings) (lcd : LCD1602) (localtime : Z -> error + datetime)
        (d : Device) (client' : Client) (w' : World)
        (t y mo dd hh mi ss wd yd : Z) :
  responsive (board d) ->
  query_time (Ntp.init (host settings) (port settings) 5, net d) = ((client', w'), inr t) ->
  localtime (t + offset settings * 3600) = inr (y, mo, dd, hh, mi, ss, wd, yd) ->
  let '(d', outcome) := update_time settings lcd localtime d in
  outcome = inr tt
  /\ ntp_time d' = t + offset settings * 3600
  /\ net d' = w'
  /\ clock_sets (log (board d'))
     = clock_sets (log (board d)) ++ [(y, mo, dd, wd, hh, mi, ss, yd)]
  /\ shown (log (board d'))
     = shown (log (board d)) ++ code_points "Getting time..." ++ code_points "Got time".
Proof.
  intros Hack Hq Hlt.
  rewrite (update_time_success_run settings lcd localtime d client' w' Hack
             t y mo dd hh mi ss wd yd Hq Hlt).
  cbn [ntp_time net board emit log].
  repeat apply conj; try reflexivity.
  - rewrite !clock_sets_app, !clock_sets_banner. reflexivity.
  - rewrite !shown_app, !shown_banner. cbn [shown app]. now rewrite app_nil_r.
Qed.

Lemma update_time_sets_clock_witness :
  let settings := mkSettings Ntp.default_host 123 (-5) in
  let w := Wire.world None [(Wire.sample_reply, Wire.server)] in
  let d := mkDevice 0 w (mkBoard [] [] []) in
  let '(d', outcome) :=
    update_time settings (mkLCD1602 62)
      (fun _ => inr (2023, 11, 14, 17, 13, 20, 1, 318)) d in
  outcome = inr tt
  /\ ntp_time d' = 1700000000 + -5 * 3600
  /\ net d' = snd (fst (query_time (Ntp.default_client, w)))
  /\ clock_sets (log (board d')) = [] ++ [(2023, 11, 14, 1, 17, 13, 20, 318)]
  /\ shown (log (board d'))
     = [] ++ code_points "Getting time..." ++ code_points "Got time".
Proof.
  refine (update_time_sets_clock
           (mkSettings Ntp.default_host 123 (-5)) (mkLCD1602 62)
           (fun _ => inr (2023, 11, 14, 17, 13, 20, 1, 318))
           (mkDevice 0 (Wire.world None [(Wire.sample_reply, Wire.server)])
                     (mkBoard [] [] []))
           (fst (fst (query_time (Ntp.default_client,
                                  Wire.world None [(Wire.sample_reply, Wire.server)]))))
           (snd (fst (query_time (Ntp.default_client,
                                  Wire.world None [(Wire.sample_reply, Wire.server)]))))
           1700000000 2023 11 14 17 13 20 1 318 eq_refl _ eq_refl).
  vm_compute. reflexivity.
Defined.

(** X23: [ntp_time] is assigned before the clock is set.  When the
    query returns [t] but [localtime] then raises, [update_time]
    reports "No time" (with "Timeout" for an [OSError], "Bad data"
    otherwise) after "Got time" and leaves the clock unset, yet
    [ntp_time] already holds t + offset * 3600. *)
Theorem update_time_keeps_time_on_late_failure
        (settings : Settings) (lcd : LCD1602) (localtime : Z -> error + datetime)
        (d : Device) (client' : Client) (w' : World) (t : Z) (e : error) :
  responsive (board d) ->
  query_time (Ntp.init (host settings) (port settings) 5, net d) = ((client', w'), inr t) ->
  localtime (t + offset settings * 3600) = inl e ->
  let '(d', outcome) := update_time settings lcd localtime d in
  outcome = inr tt
  /\ ntp_time d' = t + offset settings * 3600
  /\ clock_sets (log (board d')) = clock_sets (log (board d))
  /\ shown (log (board d'))
     = shown (log (board d)) ++ code_points "Getting time..." ++ code_points "Got time"
       ++ code_points "No time"
       ++ code_points (if is_OSError e then "Timeout" else "Bad data").
Proof.
  intros Hack Hq Hlt.
  rewrite (update_time_late_failure_run settings lcd localtime d client' w' Hack
             t e Hq Hlt).
  cbn [ntp_time net board emit log].
  repeat apply conj; try reflexivity.
  - rewrite !clock_sets_app, !clock_sets_banner, clock_sets_data_writes.
    cbn [clock_sets app]. now rewrite app_nil_r.
  - rewrite !shown_app, !shown_banner, shown_data_writes. cbn [shown app].
    rewrite app_nil_r. destruct (is_OSError e); reflexivity.
Qed.

Lemma update_time_keeps_time_on_late_failure_witness :
  let settings := mkSettings Ntp.default_host 123 0 in
  let w := Wire.world None [(Wire.sample_reply, Wire.server)] in
  let d := mkDevice 0 w (mkBoard [] [] []) in
  let '(d', outcome) :=
    update_time settings (mkLCD1602 62) (fun _ => inl (ValueError "")) d in
  outcome = inr tt
  /\ ntp_time d' = 1700000000 + 0 * 3600
  /\ clock_sets (log (board d')) = []
  /\ shown (log (board d'))
     = [] ++ code_points "Getting time..." ++ code_points "Got time"
       ++ code_points "No time" ++ code_points "Bad data".
Proof.
  refine (update_time_keeps_time_on_late_failure
           (mkSettings Ntp.default_host 123 0) (mkLCD1602 62)
           (fun _ => inl (ValueError ""))
           (mkDevice 0 (Wire.world None [(Wire.sample_reply, Wire.server)])
                     (mkBoard [] [] []))
           (fst (fst (query_time (Ntp.default_client,
                                  Wire.world None [(Wire.sample_reply, Wire.server)]))))
           (snd (fst (query_time (Ntp.default_client,
                                  Wire.world None [(Wire.sample_reply, Wire.server)]))))
           1700000000 (ValueError "") eq_refl _ eq_refl).
  vm_compute. reflexivity.
Defined.

End DemoSpec.
